(** * Alnor Home Assistant integration: humidity control and connection manager

    Shallow embedding of [custom_components/alnor]:
    - [humidity_control_mixin.py] (module [Mixin]),
    - [humidifier.py] (module [Humidifier]) and [climate.py] (module [Climate]),
      the two entities that implement the hysteresis check themselves,
    - the sensor aggregation [current_humidity] / [_get_current_humidity],
    - [coordinator.py] (module [Coordinator]): per-device connection setup,
      the polling cycle with its local-to-cloud fallback, and [_async_setup].

    Time is counted in whole seconds ([Z]); [now] is the value the entity reads
    from the clock ([dt_util.utcnow()] / [datetime.now()]) during the check. *)

From Stdlib Require Import ZArith String List Bool Lia QArith.
Import ListNotations.

Open Scope string_scope.
Open Scope Z_scope.
Open Scope list_scope.

(* ------------------------------------------------------------------------- *)
(** ** Shared data: per-device options and the humidity-control state *)

(** The per-device keys of [config_entry.options] that the check reads;
    [None] means the key is absent, so that [options.get(key, default)]
    yields the default. *)
Record options := mk_options {
  opt_hysteresis : option Z;
  opt_target : option Z;
  opt_high_mode : option string;
  opt_low_mode : option string;
  opt_cooldown : option Z
}.

(** [dict.get(key, default)] *)
Definition get {A} (o : option A) (default : A) : A :=
  match o with Some v => v | None => default end.

(** Constants of [const.py]. *)
Definition DEFAULT_HUMIDITY_HYSTERESIS : Z := 5.
Definition DEFAULT_HUMIDITY_COOLDOWN : Z := 60.
Definition DEFAULT_HUMIDITY_HIGH_MODE : string := "home_plus".
Definition DEFAULT_HUMIDITY_LOW_MODE : string := "home".

(** [self._humidity_control_enabled] and [self._last_mode_change]. *)
Record hc_state := mk_hc {
  hc_enabled : bool;
  hc_last_mode_change : option Z
}.

(** Result of one check: the modes passed to the mode-set call
    ([_set_ventilation_mode], [async_set_mode] or [async_set_fan_mode]),
    in call order, and the humidity-control state afterwards. *)
Definition outcome := (list string * hc_state)%type.

(** Python [current_mode != mode] with [current_mode : str | None]. *)
Definition mode_ne (current_mode : option string) (mode : string) : bool :=
  match current_mode with
  | Some c => negb (String.eqb c mode)
  | None => true
  end.

(** [if self._last_mode_change: elapsed = now - last; if elapsed < cooldown: return]
    (a [datetime] is always truthy). *)
Definition cooldown_active (last : option Z) (now cooldown : Z) : bool :=
  match last with
  | Some t => now - t <? cooldown
  | None => false
  end.

(** State after a mode change recorded at [now]. *)
Definition record_change (st : hc_state) (now : Z) : hc_state :=
  mk_hc st.(hc_enabled) (Some now).

(* ------------------------------------------------------------------------- *)
(** ** [HumidityControlMixin] *)

Module Mixin.

Record humidity_config := mk_config {
  cfg_hysteresis : Z;
  cfg_target : option Z;
  cfg_high_mode : string;
  cfg_low_mode : string;
  cfg_cooldown : Z
}.

(** [_get_humidity_config] *)
Definition get_humidity_config (o : options) : humidity_config :=
  mk_config (get o.(opt_hysteresis) DEFAULT_HUMIDITY_HYSTERESIS)
            o.(opt_target)
            (get o.(opt_high_mode) DEFAULT_HUMIDITY_HIGH_MODE)
            (get o.(opt_low_mode) DEFAULT_HUMIDITY_LOW_MODE)
            (get o.(opt_cooldown) DEFAULT_HUMIDITY_COOLDOWN).

(** [upper_threshold = min(target + hysteresis, 99)] *)
Definition upper_threshold (target hysteresis : Z) : Z := Z.min (target + hysteresis) 99.
(** [lower_threshold = max(target - hysteresis, 1)] *)
Definition lower_threshold (target hysteresis : Z) : Z := Z.max (target - hysteresis) 1.

(** [_check_humidity_control]; [current] is [self._get_current_humidity()],
    [current_mode] is [self._get_current_mode()]. *)
Definition check_humidity_control (st : hc_state) (o : options)
    (current : option Z) (current_mode : option string) (now : Z) : outcome :=
  if negb st.(hc_enabled) then ([], st) else
  let config := get_humidity_config o in
  match current, config.(cfg_target) with
  | Some cur, Some target =>
      if cooldown_active st.(hc_last_mode_change) now config.(cfg_cooldown)
      then ([], st)
      else
        let upper := upper_threshold target config.(cfg_hysteresis) in
        let lower := lower_threshold target config.(cfg_hysteresis) in
        if (upper <? cur) && mode_ne current_mode config.(cfg_high_mode)
        then ([config.(cfg_high_mode)], record_change st now)
        else if (cur <? lower) && mode_ne current_mode config.(cfg_low_mode)
        then ([config.(cfg_low_mode)], record_change st now)
        else ([], st)
  | _, _ => ([], st)
  end.

End Mixin.

(* ------------------------------------------------------------------------- *)
(** ** [AlnorHumidifier] *)

Module Humidifier.

(** [HUMIDITY_CONTROL_COOLDOWN] of [humidifier.py]. *)
Definition HUMIDITY_CONTROL_COOLDOWN : Z := 60.

(** [upper_threshold = target + hysteresis], [lower_threshold = target - hysteresis] *)
Definition upper_threshold (target hysteresis : Z) : Z := target + hysteresis.
Definition lower_threshold (target hysteresis : Z) : Z := target - hysteresis.

(** [_check_humidity_control]; [current] is [self.current_humidity],
    [current_mode] is [self.mode]. *)
Definition check_humidity_control (st : hc_state) (o : options)
    (current : option Z) (current_mode : option string) (now : Z) : outcome :=
  if negb st.(hc_enabled) then ([], st) else
  let hysteresis := get o.(opt_hysteresis) 5 in
  let target := o.(opt_target) in
  let high_mode := get o.(opt_high_mode) "home_plus" in
  let low_mode := get o.(opt_low_mode) "home" in
  match current, target with
  | Some cur, Some target =>
      let cooldown := get o.(opt_cooldown) HUMIDITY_CONTROL_COOLDOWN in
      if cooldown_active st.(hc_last_mode_change) now cooldown then ([], st)
      else
        let upper := upper_threshold target hysteresis in
        let lower := lower_threshold target hysteresis in
        if upper <? cur then
          (if mode_ne current_mode high_mode
           then ([high_mode], record_change st now)
           else ([], st))
        else if (cur <? lower) && mode_ne current_mode low_mode
        then ([low_mode], record_change st now)
        else ([], st)
  | _, _ => ([], st)
  end.

End Humidifier.

(* ------------------------------------------------------------------------- *)
(** ** [AlnorClimate] *)

Module Climate.

(** [HUMIDITY_CONTROL_COOLDOWN] of [climate.py]: the climate entity does not
    read the per-device cooldown option. *)
Definition HUMIDITY_CONTROL_COOLDOWN : Z := 120.

Definition upper_threshold (target hysteresis : Z) : Z := target + hysteresis.
Definition lower_threshold (target hysteresis : Z) : Z := target - hysteresis.

(** [_check_humidity_control]; [current] is [self.current_humidity],
    [current_mode] is [self.fan_mode]. *)
Definition check_humidity_control (st : hc_state) (o : options)
    (current : option Z) (current_mode : option string) (now : Z) : outcome :=
  if negb st.(hc_enabled) then ([], st) else
  let hysteresis := get o.(opt_hysteresis) 5 in
  let target := o.(opt_target) in
  let high_mode := get o.(opt_high_mode) "party" in
  let low_mode := get o.(opt_low_mode) "home" in
  match current, target with
  | Some cur, Some target =>
      if cooldown_active st.(hc_last_mode_change) now HUMIDITY_CONTROL_COOLDOWN
      then ([], st)
      else
        let upper := upper_threshold target hysteresis in
        let lower := lower_threshold target hysteresis in
        if (upper <? cur) && mode_ne current_mode high_mode
        then ([high_mode], record_change st now)
        else if (cur <? lower) && mode_ne current_mode low_mode
        then ([low_mode], record_change st now)
        else ([], st)
  | _, _ => ([], st)
  end.

End Climate.

(* ------------------------------------------------------------------------- *)
(** ** [async_set_humidity] of the humidifier and climate entities *)

(** Observable effects of a service call, in order. *)
Inductive effect :=
| LogError                     (** [_LOGGER.error(...)] *)
| UpdateEntry (o : options)    (** [hass.config_entries.async_update_entry(..., options=...)] *)
| WriteHaState                 (** [self.async_write_ha_state()] *)
| ModeSet (mode : string).     (** a mode-set call issued by [_check_humidity_control] *)

(** The options with [humidity_target_<device_id>] set to [h]. *)
Definition set_target (o : options) (h : Z) : options :=
  mk_options o.(opt_hysteresis) (Some h) o.(opt_high_mode) o.(opt_low_mode) o.(opt_cooldown).

(** What [_check_humidity_control] reads from the world when it runs: the
    aggregated humidity, the current mode and the clock. *)
Record world := mk_world {
  w_current : option Z;
  w_mode : option string;
  w_now : Z
}.

Module HumidifierEntity.

(** The state of an [AlnorHumidifier] that [async_set_humidity] touches:
    the persisted options of its device, the cached [_target_humidity],
    and the humidity-control state. *)
Record entity := mk_entity {
  ent_options : options;
  ent_target_humidity : option Z;
  ent_hc : hc_state
}.

Definition async_set_humidity (e : entity) (humidity : Z) (w : world)
    : entity * list effect :=
  if negb ((0 <=? humidity) && (humidity <=? 100)) then (e, [LogError]) else
  let new_options := set_target e.(ent_options) humidity in
  let e1 := mk_entity new_options (Some humidity) e.(ent_hc) in
  let eff := [UpdateEntry new_options; WriteHaState] in
  if e.(ent_hc).(hc_enabled) then
    let (modes, hc') :=
      Humidifier.check_humidity_control e1.(ent_hc) new_options
        w.(w_current) w.(w_mode) w.(w_now) in
    (mk_entity new_options (Some humidity) hc', eff ++ map ModeSet modes)
  else (e1, eff).

End HumidifierEntity.

Module ClimateEntity.

(** The state of an [AlnorClimate] that [async_set_humidity] touches; the
    climate entity keeps no cached target. *)
Record entity := mk_entity {
  ent_options : options;
  ent_hc : hc_state
}.

Definition async_set_humidity (e : entity) (humidity : Z) (w : world)
    : entity * list effect :=
  if negb ((0 <=? humidity) && (humidity <=? 100)) then (e, [LogError]) else
  let new_options := set_target e.(ent_options) humidity in
  let eff := [UpdateEntry new_options] in
  if e.(ent_hc).(hc_enabled) then
    let (modes, hc') :=
      Climate.check_humidity_control e.(ent_hc) new_options
        w.(w_current) w.(w_mode) w.(w_now) in
    (mk_entity new_options hc', eff ++ map ModeSet modes)
  else (mk_entity new_options e.(ent_hc), eff).

End ClimateEntity.

(* ------------------------------------------------------------------------- *)
(** ** Sensor aggregation: [current_humidity] / [_get_current_humidity] *)

(** The value of a Python [float]: a finite double is exactly the rational it
    denotes. *)
Inductive float_val :=
| FFinite (q : Q)
| FInf
| FNegInf
| FNaN.

Inductive py_exn := ValueError | TypeError | OverflowError.

(** [int(x)] on a float: truncation toward zero for finite values;
    [int(nan)] raises [ValueError], [int(+-inf)] raises [OverflowError]. *)
Definition py_int (f : float_val) : Z + py_exn :=
  match f with
  | FFinite q => inl (Z.quot (Qnum q) (Zpos (Qden q)))
  | FNaN => inr ValueError
  | FInf | FNegInf => inr OverflowError
  end.

Definition STATE_UNAVAILABLE : string := "unavailable".
Definition STATE_UNKNOWN : string := "unknown".

(** [max(values)] for a non-empty list, [None] for an empty one. *)
Definition py_max (values : list Z) : option Z :=
  match values with
  | [] => None
  | v :: vs => Some (fold_left Z.max vs v)
  end.

Section Aggregation.

(** [float(s)] on a state string ([None]: it raises [ValueError]); Python's
    builtin, not part of this repository. *)
Variable py_float : string -> option float_val.
(** [hass.states.get(sensor_id)], reduced to the [state] string of the
    [State] object it returns. *)
Variable states_get : string -> option string.

(** The loop over [humidity_sensor_ids]: [ValueError] and [TypeError] are
    caught and the sensor skipped; any other exception propagates. *)
Fixpoint collect (sensor_ids : list string) (humidity_values : list Z)
    : list Z + py_exn :=
  match sensor_ids with
  | [] => inl humidity_values
  | sensor_id :: rest =>
      match states_get sensor_id with
      | Some s =>
          if String.eqb s STATE_UNAVAILABLE || String.eqb s STATE_UNKNOWN
          then collect rest humidity_values
          else
            match py_float s with
            | None => collect rest humidity_values
            | Some f =>
                match py_int f with
                | inl v => collect rest (humidity_values ++ [v])
                | inr ValueError | inr TypeError => collect rest humidity_values
                | inr e => inr e
                end
            end
      | None => collect rest humidity_values
      end
  end.

(** [current_humidity]: [inl None] when no sensor is configured or no value
    was collected, [inl (Some m)] with [m] the maximum, [inr e] when an
    exception escapes. *)
Definition current_humidity (humidity_sensor_ids : list string) : option Z + py_exn :=
  match humidity_sensor_ids with
  | [] => inl None
  | _ =>
      match collect humidity_sensor_ids [] with
      | inl humidity_values => inl (py_max humidity_values)
      | inr e => inr e
      end
  end.

(** The aggregation in the words of the specification: every reading that
    is neither unavailable nor unknown and whose [float] is finite
    contributes its truncation toward zero. *)
Fixpoint truncated_readings (sensor_ids : list string) : list Z :=
  match sensor_ids with
  | [] => []
  | sensor_id :: rest =>
      match states_get sensor_id with
      | Some s =>
          if String.eqb s STATE_UNAVAILABLE || String.eqb s STATE_UNKNOWN
          then truncated_readings rest
          else
            match py_float s with
            | Some (FFinite q) => Z.quot (Qnum q) (Zpos (Qden q)) :: truncated_readings rest
            | _ => truncated_readings rest
            end
      | None => truncated_readings rest
      end
  end.

End Aggregation.

(** The double nearest to 65.9: [4637300241308058 / 2^46]. *)
Definition double_65_9 : Q := 4637300241308058 # 70368744177664.

(* ------------------------------------------------------------------------- *)
(** ** [AlnorDataUpdateCoordinator] *)

Module Coordinator.

Inductive ProductType :=
| HEAT_RECOVERY_UNIT
| EXHAUST_FAN
| CO2_SENSOR_VMI
| CO2_SENSOR_VMS
| HUMIDITY_SENSOR_VMI
| HUMIDITY_SENSOR_VMS
| OTHER_PRODUCT_TYPE.   (** any other member of the SDK's [ProductType] *)

(** The SDK's [Device] model, reduced to what the coordinator reads. *)
Record device := mk_device {
  device_id : string;
  product_id : string;
  product_type : ProductType;
  host : string
}.

(** Transport clients: [ModbusClient(local_ip, MODBUS_PORT)] and
    [CloudClient(self.api, device_id)]. *)
Inductive client :=
| ModbusClient (ip : string)
| CloudClient (dev : string).

Inductive controller_kind :=
| HeatRecoveryUnitController
| ExhaustFanController
| SensorController.

Record controller := mk_controller {
  ctl_kind : controller_kind;
  ctl_client : client
}.

Definition CONNECTION_MODE_CLOUD : string := "cloud".
Definition CONNECTION_MODE_LOCAL : string := "local".
Definition UPDATE_INTERVAL_LOCAL : Z := 30.
Definition UPDATE_INTERVAL_CLOUD : Z := 60.

(** A Python [dict] keyed by strings, in insertion order: assigning an
    existing key keeps its position. *)
Definition dict (V : Type) := list (string * V).

Fixpoint dict_get {V} (d : dict V) (k : string) : option V :=
  match d with
  | [] => None
  | (k', v) :: r => if String.eqb k' k then Some v else dict_get r k
  end.

Fixpoint dict_set {V} (d : dict V) (k : string) (v : V) : dict V :=
  match d with
  | [] => [(k, v)]
  | (k', v') :: r => if String.eqb k' k then (k, v) :: r else (k', v') :: dict_set r k v
  end.

(** The coordinator's attributes; [api] says whether [self.api] is set. *)
Record coord := mk_coord {
  api : bool;
  devices : dict device;
  cloud_clients : dict client;
  modbus_clients : dict client;
  controllers : dict controller;
  connection_modes : dict string;
  update_interval : Z
}.

Definition set_cloud_clients (c : coord) (k : string) (v : client) : coord :=
  mk_coord c.(api) c.(devices) (dict_set c.(cloud_clients) k v) c.(modbus_clients)
           c.(controllers) c.(connection_modes) c.(update_interval).
Definition set_modbus_clients (c : coord) (k : string) (v : client) : coord :=
  mk_coord c.(api) c.(devices) c.(cloud_clients) (dict_set c.(modbus_clients) k v)
           c.(controllers) c.(connection_modes) c.(update_interval).
Definition set_controller (c : coord) (k : string) (ctl : controller) (mode : string) : coord :=
  mk_coord c.(api) c.(devices) c.(cloud_clients) c.(modbus_clients)
           (dict_set c.(controllers) k ctl) (dict_set c.(connection_modes) k mode)
           c.(update_interval).
Definition set_device (c : coord) (k : string) (d : device) : coord :=
  mk_coord c.(api) (dict_set c.(devices) k d) c.(cloud_clients) c.(modbus_clients)
           c.(controllers) c.(connection_modes) c.(update_interval).
Definition set_update_interval (c : coord) (i : Z) : coord :=
  mk_coord c.(api) c.(devices) c.(cloud_clients) c.(modbus_clients)
           c.(controllers) c.(connection_modes) i.

(** Calls to the outside world, in order. *)
Inductive event :=
| EvModbusConnect (ip : string)            (** [await modbus_client.connect()] *)
| EvCreateController (cl : client)         (** [self._create_controller(cl, device)] *)
| EvGetState (cl : client).                (** [await controller.get_state()] *)

(** [_create_controller] *)
Definition _create_controller (cl : client) (d : device) : option controller :=
  match d.(product_type) with
  | HEAT_RECOVERY_UNIT => Some (mk_controller HeatRecoveryUnitController cl)
  | EXHAUST_FAN => Some (mk_controller ExhaustFanController cl)
  | CO2_SENSOR_VMI | CO2_SENSOR_VMS | HUMIDITY_SENSOR_VMI | HUMIDITY_SENSOR_VMS =>
      Some (mk_controller SensorController cl)
  | OTHER_PRODUCT_TYPE => None
  end.

(** [local_ips.get(device_id) or device.host] *)
Definition candidate_ip (local_ips : dict string) (d : device) (dev_id : string) : string :=
  match dict_get local_ips dev_id with
  | Some ip => if String.eqb ip "" then d.(host) else ip
  | None => d.(host)
  end.

(** The tail of [_setup_device_connection]: build the controller over [cl]
    and record it with its connection mode when construction succeeds. *)
Definition finish_setup (c : coord) (d : device) (dev_id : string)
    (cl : client) (mode : string) (ev : list event) : coord * list event :=
  match _create_controller cl d with
  | Some ctl => (set_controller c dev_id ctl mode, ev ++ [EvCreateController cl])
  | None => (c, ev ++ [EvCreateController cl])
  end.

(** [_setup_device_connection]; [modbus_connect ip] says whether
    [await ModbusClient(ip, MODBUS_PORT).connect()] returns without raising. *)
Definition _setup_device_connection (modbus_connect : string -> bool)
    (local_ips : dict string) (c : coord) (d : device) (dev_id : string)
    : coord * list event :=
  let local_ip := candidate_ip local_ips d dev_id in
  if negb (String.eqb local_ip "") && modbus_connect local_ip then
    finish_setup (set_modbus_clients c dev_id (ModbusClient local_ip)) d dev_id
      (ModbusClient local_ip) CONNECTION_MODE_LOCAL [EvModbusConnect local_ip]
  else
    let ev := if String.eqb local_ip "" then [] else [EvModbusConnect local_ip] in
    if negb c.(api) then (c, ev)
    else
      finish_setup (set_cloud_clients c dev_id (CloudClient dev_id)) d dev_id
        (CloudClient dev_id) CONNECTION_MODE_CLOUD ev.

(** The device loop of [_async_update_data] (after setup). [get_state_ok cl]
    says whether [await controller.get_state()] on a controller built over
    [cl] returns in this cycle; the [DeviceState] it returns is represented
    by the client that served it. [items] is [self.controllers.items()]:
    the loop only reassigns the key it is visiting, so iterating over the
    dict as it was when the loop started is the same. A [KeyError] on
    [self.devices[device_id]] is caught by [except Exception]. *)
Fixpoint poll_devices (get_state_ok : client -> bool)
    (items : list (string * controller)) (c : coord) (states : dict client)
    (ev : list event) : coord * dict client * list event :=
  match items with
  | [] => (c, states, ev)
  | (dev_id, ctl) :: rest =>
      let cl := ctl.(ctl_client) in
      let ev1 := ev ++ [EvGetState cl] in
      if get_state_ok cl then
        poll_devices get_state_ok rest c (dict_set states dev_id cl) ev1
      else
        let is_local :=
          match dict_get c.(connection_modes) dev_id with
          | Some m => String.eqb m CONNECTION_MODE_LOCAL
          | None => false
          end in
        if negb is_local then poll_devices get_state_ok rest c states ev1 else
        match dict_get c.(cloud_clients) dev_id with
        | None => poll_devices get_state_ok rest c states ev1
        | Some cc =>
            match dict_get c.(devices) dev_id with
            | None => poll_devices get_state_ok rest c states ev1
            | Some d =>
                match _create_controller cc d with
                | None =>
                    poll_devices get_state_ok rest c states (ev1 ++ [EvCreateController cc])
                | Some cctl =>
                    let c1 := set_controller c dev_id cctl CONNECTION_MODE_CLOUD in
                    let ev2 := ev1 ++ [EvCreateController cc; EvGetState cc] in
                    if get_state_ok cc
                    then poll_devices get_state_ok rest c1 (dict_set states dev_id cc) ev2
                    else poll_devices get_state_ok rest c1 states ev2
                end
            end
        end
  end.

(** [any(mode == CONNECTION_MODE_LOCAL for mode in self.connection_modes.values())] *)
Definition any_local (modes : dict string) : bool :=
  existsb (fun kv => String.eqb (snd kv) CONNECTION_MODE_LOCAL) modes.

(** [_async_update_data] once [_setup_complete] holds: one polling cycle,
    returning the coordinator afterwards, the [states] dict and the calls made. *)
Definition _async_update_data (get_state_ok : client -> bool) (c : coord)
    : coord * dict client * list event :=
  let '(c1, states, ev) := poll_devices get_state_ok c.(controllers) c [] [] in
  (set_update_interval c1
     (if any_local c1.(connection_modes) then UPDATE_INTERVAL_LOCAL else UPDATE_INTERVAL_CLOUD),
   states, ev).

(** *** [_async_setup] *)

Inductive api_error := CloudAuthenticationError | OtherApiError.

Inductive api_result (A : Type) :=
| ApiOk (a : A)
| ApiErr (e : api_error).
Arguments ApiOk {A} a.
Arguments ApiErr {A} e.

(** One entry of [await self.api.get_devices(bridge_id)]; [dd_product_type]
    is [ProductType.from_product_id(product_id)]. *)
Record device_data := mk_device_data {
  dd_id : string;
  dd_product_id : string;
  dd_product_type : option ProductType;
  dd_host : string
}.

(** The answers of the cloud API during setup: [connect] ([None] when it
    returns), [get_bridges] (bridge ids) and [get_devices]. *)
Record cloud_api := mk_cloud_api {
  api_connect : option api_error;
  api_get_bridges : api_result (list string);
  api_get_devices : string -> api_result (list device_data)
}.

(** The exceptions [_async_setup] raises. *)
Inductive setup_exn := ConfigEntryAuthFailed | UpdateFailed.

(** The inner loop over [devices] of one bridge. *)
Fixpoint setup_devices (modbus_connect : string -> bool) (local_ips : dict string)
    (dds : list device_data) (c : coord) (ev : list event) : coord * list event :=
  match dds with
  | [] => (c, ev)
  | dd :: rest =>
      match dd.(dd_product_type) with
      | None => setup_devices modbus_connect local_ips rest c ev
      | Some pt =>
          let d := mk_device dd.(dd_id) dd.(dd_product_id) pt dd.(dd_host) in
          let '(c1, ev1) :=
            _setup_device_connection modbus_connect local_ips
              (set_device c dd.(dd_id) d) d dd.(dd_id) in
          setup_devices modbus_connect local_ips rest c1 (ev ++ ev1)
      end
  end.

(** The loop over [self.bridges]; any exception is turned into [UpdateFailed]. *)
Fixpoint discover (a : cloud_api) (modbus_connect : string -> bool)
    (local_ips : dict string) (bridges : list string) (c : coord) (ev : list event)
    : (coord * list event) + setup_exn :=
  match bridges with
  | [] => inl (c, ev)
  | b :: rest =>
      match a.(api_get_devices) b with
      | ApiErr _ => inr UpdateFailed
      | ApiOk dds =>
          let '(c1, ev1) := setup_devices modbus_connect local_ips dds c ev in
          discover a modbus_connect local_ips rest c1 ev1
      end
  end.

(** [_async_setup]. [_sync_zones], which runs last, catches every error of
    [list_zones] and [create_zone] and changes nothing modelled here. *)
Definition _async_setup (a : cloud_api) (modbus_connect : string -> bool)
    (local_ips : dict string) (c : coord) : (coord * list event) + setup_exn :=
  let c0 := mk_coord true c.(devices) c.(cloud_clients) c.(modbus_clients)
                     c.(controllers) c.(connection_modes) c.(update_interval) in
  match a.(api_connect) with
  | Some CloudAuthenticationError => inr ConfigEntryAuthFailed
  | Some OtherApiError => inr UpdateFailed
  | None =>
      match a.(api_get_bridges) with
      | ApiErr _ => inr UpdateFailed
      | ApiOk bridges => discover a modbus_connect local_ips bridges c0 []
      end
  end.

(** A freshly constructed coordinator. *)
Definition init_coord : coord := mk_coord false [] [] [] [] [] UPDATE_INTERVAL_CLOUD.

(** Outcome of [async_setup_entry] in [__init__.py]. *)
Inductive entry_result :=
| EntrySetupRaised (e : setup_exn)
| EntryPlatformsForwarded (c : coord).

(** [async_setup_entry]: [await coordinator.async_config_entry_first_refresh()]
    runs the first [_async_update_data], whose [_async_setup] may raise; the
    exception leaves [async_setup_entry] before the coordinator is stored
    and the platforms are forwarded. *)
Definition async_setup_entry (a : cloud_api) (modbus_connect : string -> bool)
    (local_ips : dict string) (get_state_ok : client -> bool) : entry_result :=
  match _async_setup a modbus_connect local_ips init_coord with
  | inr e => EntrySetupRaised e
  | inl (c, _) =>
      let '(c1, _, _) := _async_update_data get_state_ok c in
      EntryPlatformsForwarded c1
  end.

(** The clients passed to [_create_controller], in call order. *)
Definition creations (ev : list event) : list client :=
  flat_map (fun e => match e with EvCreateController cl => [cl] | _ => [] end) ev.

(** The clients through which [get_state] was called, in call order. *)
Definition reads (ev : list event) : list client :=
  flat_map (fun e => match e with EvGetState cl => [cl] | _ => [] end) ev.

End Coordinator.

(* ------------------------------------------------------------------------- *)
(** ** Entity service calls: mode, fan mode, HVAC mode, filter reset *)

(** Calls an entity makes on the device controller and the coordinator. *)
Inductive command :=
| CmdSetMode (mode : string)      (** [await controller.set_mode(...)] *)
| CmdSetSpeed (speed : Z)         (** [await controller.set_speed(...)] *)
| CmdResetFilter                  (** [await controller.reset_filter_timer()] *)
| CmdRefresh.                     (** [await self.coordinator.async_request_refresh()] *)

(** What a service call does, in order: controller calls and logged errors. *)
Inductive svc_event :=
| Cmd (c : command)
| SvcLogError.

(* The SDK's [VentilationMode] enum is not part of this repository: the
   service calls below take [ventilation_mode s], whether [VentilationMode(s)]
   returns (it raises [ValueError] otherwise), as a parameter. *)

(** The speed nudge that follows a successful [set_mode]: [speed] is the
    [speed] of [self.coordinator.data.get(self.device_id)] ([None]: no state). *)
Definition speed_nudge (standby : bool) (speed : option Z) : list command :=
  match speed with
  | None => []
  | Some s =>
      if standby then (if 0 <? s then [CmdSetSpeed 0] else [])
      else (if s =? 0 then [CmdSetSpeed 50] else [])
  end.

(** Runs controller calls in order inside the [try]: the first one that
    raises ([call_ok] false) ends the block with a logged error. *)
Fixpoint run_calls (call_ok : command -> bool) (cmds : list command) : list svc_event :=
  match cmds with
  | [] => []
  | c :: rest => if call_ok c then Cmd c :: run_calls call_ok rest else [Cmd c; SvcLogError]
  end.

Module HumidifierService.

(** [AlnorHumidifier.async_set_mode]; [ventilation_mode s] is whether
    [VentilationMode(s)] returns, [has_controller] is whether
    [self.coordinator.controllers.get(self.device_id)] is set, [call_ok]
    whether a controller or coordinator call returns without raising. *)
Definition async_set_mode (ventilation_mode : string -> bool)
    (has_controller : bool) (speed : option Z)
    (call_ok : command -> bool) (mode : string) : list svc_event :=
  if negb has_controller then [SvcLogError] else
  if negb (ventilation_mode mode) then [SvcLogError] else
  run_calls call_ok
    ([CmdSetMode mode] ++ speed_nudge (String.eqb mode "standby") speed ++ [CmdRefresh]).

(** [async_turn_on] and [async_turn_off]. *)
Definition async_turn_on ventilation_mode has_controller speed call_ok : list svc_event :=
  async_set_mode ventilation_mode has_controller speed call_ok "home".
Definition async_turn_off ventilation_mode has_controller speed call_ok : list svc_event :=
  async_set_mode ventilation_mode has_controller speed call_ok "standby".

End HumidifierService.

Module ClimateService.

(** [AlnorClimate.async_set_fan_mode]. *)
Definition async_set_fan_mode (ventilation_mode : string -> bool)
    (has_controller : bool) (speed : option Z)
    (call_ok : command -> bool) (fan_mode : string) : list svc_event :=
  if negb has_controller then [SvcLogError] else
  if negb (ventilation_mode fan_mode) then [SvcLogError] else
  run_calls call_ok
    ([CmdSetMode fan_mode] ++ speed_nudge (String.eqb fan_mode "standby") speed ++ [CmdRefresh]).

Inductive HVACMode := HVAC_OFF | HVAC_FAN_ONLY | HVAC_OTHER.

(** [AlnorClimate.async_set_hvac_mode]; [humidity_sensors] is the option
    [humidity_sensors_<device_id>] ([bool] of it: non-empty). *)
Definition async_set_hvac_mode (humidity_sensors : list string) (has_controller : bool)
    (call_ok : command -> bool) (hvac_mode : HVACMode) : list svc_event :=
  match humidity_sensors with
  | _ :: _ => []
  | [] =>
      if negb has_controller then [SvcLogError] else
      run_calls call_ok
        (match hvac_mode with
         | HVAC_OFF => [CmdSetSpeed 0]
         | HVAC_FAN_ONLY => [CmdSetSpeed 50]
         | HVAC_OTHER => []
         end ++ [CmdRefresh])
  end.

End ClimateService.

Module ButtonService.

(** [AlnorFilterResetButton.async_press]; [supports_reset] is
    [hasattr(controller, "reset_filter_timer")] (the warning it logs
    otherwise is not an error). *)
Definition async_press (has_controller supports_reset : bool)
    (call_ok : command -> bool) : list svc_event :=
  if negb has_controller then [SvcLogError] else
  if negb supports_reset then [] else
  run_calls call_ok [CmdResetFilter; CmdRefresh].

End ButtonService.

(* ------------------------------------------------------------------------- *)
(** ** The humidifier's sensor listener *)

Module SensorListener.

(** [self._humidity_control_enabled] and [self._sensor_listener_unsub]
    ([Some ids]: a listener tracking [ids] is registered). *)
Record lstate := mk_lstate {
  l_enabled : bool;
  l_listener : option (list string)
}.

Inductive levent :=
| Track (ids : list string)   (** [async_track_state_change_event(hass, ids, ...)] *)
| Untrack                     (** [self._sensor_listener_unsub()] *)
| ScheduleCheck               (** [hass.async_create_task(self._check_humidity_control())] *)
| WriteState.                 (** [self.async_write_ha_state()] *)

(** [_subscribe_to_sensors]; [sensor_ids] is the option
    [humidity_sensors_<device_id>]. *)
Definition _subscribe_to_sensors (sensor_ids : list string) (st : lstate)
    : lstate * list levent :=
  match st.(l_listener) with
  | Some _ => (st, [])
  | None =>
      match sensor_ids with
      | [] => (st, [])
      | _ => (mk_lstate st.(l_enabled) (Some sensor_ids), [Track sensor_ids])
      end
  end.

(** [_unsubscribe_from_sensors] *)
Definition _unsubscribe_from_sensors (st : lstate) : lstate * list levent :=
  match st.(l_listener) with
  | Some _ => (mk_lstate st.(l_enabled) None, [Untrack])
  | None => (st, [])
  end.

(** [enable_humidity_control] *)
Definition enable_humidity_control (sensor_ids : list string) (st : lstate)
    : lstate * list levent :=
  let '(st1, ev1) := _subscribe_to_sensors sensor_ids (mk_lstate true st.(l_listener)) in
  (st1, ev1 ++ [ScheduleCheck]).

(** [disable_humidity_control] *)
Definition disable_humidity_control (st : lstate) : lstate * list levent :=
  _unsubscribe_from_sensors (mk_lstate false st.(l_listener)).

(** [async_added_to_hass] and [async_will_remove_from_hass]. *)
Definition async_added_to_hass (sensor_ids : list string) (st : lstate) : lstate * list levent :=
  _subscribe_to_sensors sensor_ids st.
Definition async_will_remove_from_hass (st : lstate) : lstate * list levent :=
  _unsubscribe_from_sensors st.

(** [_humidity_sensor_changed]; [new_state] is the [state] string of the
    event's [new_state] ([None]: no new state). *)
Definition _humidity_sensor_changed (new_state : option string) (st : lstate) : list levent :=
  match new_state with
  | None => []
  | Some s =>
      if String.eqb s STATE_UNAVAILABLE || String.eqb s STATE_UNKNOWN then []
      else WriteState :: (if st.(l_enabled) then [ScheduleCheck] else [])
  end.

(** The entity operations that touch the listener. *)
Inductive lop := OpAddedToHass | OpWillRemoveFromHass | OpEnable | OpDisable.

Definition step (sensor_ids : list string) (o : lop) (st : lstate) : lstate * list levent :=
  match o with
  | OpAddedToHass => async_added_to_hass sensor_ids st
  | OpWillRemoveFromHass => async_will_remove_from_hass st
  | OpEnable => enable_humidity_control sensor_ids st
  | OpDisable => disable_humidity_control st
  end.

(** Runs a sequence of operations from a state, collecting the events. *)
Fixpoint run (sensor_ids : list string) (ops : list lop) (st : lstate) : lstate * list levent :=
  match ops with
  | [] => (st, [])
  | o :: rest =>
      let '(st1, ev1) := step sensor_ids o st in
      let '(st2, ev2) := run sensor_ids rest st1 in
      (st2, ev1 ++ ev2)
  end.

(** A freshly constructed entity: control off, no listener. *)
Definition init_lstate : lstate := mk_lstate false None.

(** The number of listeners registered and released in a trace. *)
Definition tracks (ev : list levent) : nat :=
  length (filter (fun e => match e with Track _ => true | _ => false end) ev).
Definition untracks (ev : list levent) : nat :=
  length (filter (fun e => match e with Untrack => true | _ => false end) ev).

(** [1] when a listener is registered. *)
Definition held (st : lstate) : nat :=
  match st.(l_listener) with Some _ => 1 | None => 0 end.

End SensorListener.

(* ------------------------------------------------------------------------- *)
(** ** The humidity-control switch *)

Module HumidityControlSwitch.

(** An entity of the humidifier component, as [_update_humidity_entity]
    sees it: its [device_id] attribute (if any) and whether it has the
    [enable_humidity_control] / [disable_humidity_control] method of the
    requested action. Once that method is called the search ends, whether
    or not the call raises. *)
Record hentity := mk_hentity {
  h_device_id : option string;
  h_has_method : bool
}.

(** [_update_humidity_entity]: the positions (in [entities]) of the entities
    whose enable/disable method is called. [component] is
    [hass.data.get(HUMIDIFIER_DOMAIN)] ([None]: absent or no [entities]). *)
Fixpoint toggle_first (device_id : string) (entities : list hentity) (i : nat) : list nat :=
  match entities with
  | [] => []
  | e :: rest =>
      match e.(h_device_id) with
      | Some d =>
          if String.eqb d device_id then
            (if e.(h_has_method) then [i] else toggle_first device_id rest (S i))
          else toggle_first device_id rest (S i)
      | None => toggle_first device_id rest (S i)
      end
  end.

Definition _update_humidity_entity (device_id : string)
    (component : option (list hentity)) : list nat :=
  match component with
  | None => []
  | Some entities => toggle_first device_id entities 0
  end.

Definition STATE_ON : string := "on".

(** [async_added_to_hass]: the restored [_is_on] (default [True]) and the
    entities toggled when it is on. [last_state] is the restored state
    string ([None]: nothing to restore). *)
Definition async_added_to_hass (device_id : string) (last_state : option string)
    (component : option (list hentity)) : bool * list nat :=
  let is_on := match last_state with Some s => String.eqb s STATE_ON | None => true end in
  (is_on, if is_on then _update_humidity_entity device_id component else []).

(** An entity whose method [_update_humidity_entity] would call. *)
Definition targets (device_id : string) (e : hentity) : bool :=
  match e.(h_device_id) with
  | Some d => String.eqb d device_id && e.(h_has_method)
  | None => false
  end.

End HumidityControlSwitch.

(* ------------------------------------------------------------------------- *)
(** ** [_sync_zones] *)

Module ZoneSync.

Inductive zevent := CreateZone (bridge_id area_name : string).  (** [await self.api.create_zone(...)] *)

Section ZoneSync.

(** Python's [str.lower]. *)
Variable lower : string -> string.

(** [{zone.get("name", "").lower() for zone in existing_zones}]; a zone is
    given by its [name] entry ([None]: no [name] key). *)
Definition existing_zone_names (zones : list (option string)) : list string :=
  map (fun z => lower (match z with Some n => n | None => "" end)) zones.

(** The loop over [area_registry.areas.values()] for one bridge; an error of
    [create_zone] is logged and the loop goes on. *)
Definition sync_bridge (bridge_id : string) (names : list string) (areas : list string)
    : list zevent :=
  flat_map (fun area =>
              if existsb (String.eqb (lower area)) names then []
              else [CreateZone bridge_id area]) areas.

(** [_sync_zones]: [api] says whether [self.api] is set, [bridges] are the
    ids of [self.bridges], [list_zones b] the answer of
    [await self.api.list_zones(b)] ([None]: it raised, [AttributeError] or any
    other exception) and [areas] the area names. *)
Definition _sync_zones (api : bool) (bridges : list string)
    (list_zones : string -> option (list (option string))) (areas : list string)
    : list zevent :=
  if negb api then [] else
  flat_map (fun b =>
              match list_zones b with
              | None => []
              | Some zones => sync_bridge b (existing_zone_names zones) areas
              end) bridges.

End ZoneSync.

End ZoneSync.

(* ------------------------------------------------------------------------- *)
(** ** [async_unload_entry] *)

Module Unload.

Import Coordinator.

Inductive uevent :=
| DisconnectModbus (device_id : string)   (** [await modbus_client.disconnect()] *)
| WarnModbus (device_id : string)         (** its exception, logged as a warning *)
| DisconnectApi                           (** [await coordinator.api.disconnect()] *)
| WarnApi.                                (** its exception, logged as a warning *)

(** [dict.pop(k)]: [None] when [k] is absent ([KeyError]). *)
Fixpoint dict_pop {V} (d : dict V) (k : string) : option (V * dict V) :=
  match d with
  | [] => None
  | (k', v) :: r =>
      if String.eqb k' k then Some (v, r)
      else match dict_pop r k with
           | Some (x, r') => Some (x, (k', v) :: r')
           | None => None
           end
  end.

(** [async_unload_entry]: [unload_ok] is the answer of
    [async_unload_platforms], [store] is [hass.data[DOMAIN]],
    [modbus_disconnect_ok id] and [api_disconnect_ok] say whether the
    disconnects return without raising. Result: [None] when the [pop] raises
    [KeyError], else the returned [unload_ok], the store afterwards and the
    calls made. *)
Definition async_unload_entry (unload_ok : bool) (store : dict coord) (entry_id : string)
    (modbus_disconnect_ok : string -> bool) (api_disconnect_ok : bool)
    : option (bool * dict coord * list uevent) :=
  if negb unload_ok then Some (false, store, []) else
  match dict_pop store entry_id with
  | None => None
  | Some (c, store') =>
      let ev_modbus :=
        flat_map (fun kv =>
                    if modbus_disconnect_ok (fst kv) then [DisconnectModbus (fst kv)]
                    else [DisconnectModbus (fst kv); WarnModbus (fst kv)])
                 c.(modbus_clients) in
      let ev_api :=
        if c.(api) then (if api_disconnect_ok then [DisconnectApi] else [DisconnectApi; WarnApi])
        else [] in
      Some (true, store', ev_modbus ++ ev_api)
  end.

(** The Modbus clients disconnected, in call order. *)
Definition modbus_disconnects (ev : list uevent) : list string :=
  flat_map (fun e => match e with DisconnectModbus id => [id] | _ => [] end) ev.

End Unload.

(** The addresses [ModbusClient(...).connect()] was attempted on, in call
    order. *)
Definition modbus_connects (ev : list Coordinator.event) : list string :=
  flat_map (fun e => match e with Coordinator.EvModbusConnect ip => [ip] | _ => [] end) ev.

(** Whether [ProductType.from_product_id] recognised an entry. *)
Definition known_product (dd : Coordinator.device_data) : bool :=
  match dd.(Coordinator.dd_product_type) with Some _ => true | None => false end.

(* ------------------------------------------------------------------------- *)
(** ** Coordinator scenarios *)

Module CoordinatorScenarios.

Import Coordinator.

(** A connection mode either stays or goes from local to cloud. *)
Definition local_to_cloud (c c' : coord) : Prop :=
  forall k, dict_get c'.(connection_modes) k = dict_get c.(connection_modes) k \/
            (dict_get c.(connection_modes) k = Some CONNECTION_MODE_LOCAL /\
             dict_get c'.(connection_modes) k = Some CONNECTION_MODE_CLOUD).

(** One exhaust fan reached through the cloud. *)
Definition cloud_only : coord :=
  mk_coord true
    [("fan1", mk_device "fan1" "0001c89f" EXHAUST_FAN "")]
    [("fan1", CloudClient "fan1")] []
    [("fan1", mk_controller ExhaustFanController (CloudClient "fan1"))]
    [("fan1", CONNECTION_MODE_CLOUD)] UPDATE_INTERVAL_CLOUD.

(** A local heat-recovery unit and a cloud exhaust fan. *)
Definition two_devices : coord :=
  mk_coord true
    [("hru1", mk_device "hru1" "0001c845" HEAT_RECOVERY_UNIT "192.168.1.50");
     ("fan1", mk_device "fan1" "0001c89f" EXHAUST_FAN "")]
    [("fan1", CloudClient "fan1")] [("hru1", ModbusClient "192.168.1.50")]
    [("hru1", mk_controller HeatRecoveryUnitController (ModbusClient "192.168.1.50"));
     ("fan1", mk_controller ExhaustFanController (CloudClient "fan1"))]
    [("hru1", CONNECTION_MODE_LOCAL); ("fan1", CONNECTION_MODE_CLOUD)] UPDATE_INTERVAL_CLOUD.

(** A coordinator holding two Modbus clients. *)
Definition stored : coord :=
  mk_coord true [] [] [("hru1", ModbusClient "192.168.1.50"); ("hru2", ModbusClient "192.168.1.51")]
           [] [] UPDATE_INTERVAL_LOCAL.

End CoordinatorScenarios.

(* ------------------------------------------------------------------------- *)
(** ** Scenarios and auxiliary notions used in the statements *)

(** Every check issues no call and keeps its state, or issues one call and
    records [now]. *)
Definition at_most_one (r : outcome) (st : hc_state) (now : Z) : Prop :=
  r = ([], st) \/ exists m, r = ([m], record_change st now).

(** Two checks in a row, the second one on the state the first one left. *)
Definition twice (check : hc_state -> options -> option Z -> option string -> Z -> outcome)
    (st : hc_state) (o : options) (cur1 cur2 : option Z)
    (mode1 mode2 : option string) (now1 now2 : Z) : list string * list string :=
  let r1 := check st o cur1 mode1 now1 in
  let r2 := check (snd r1) o cur2 mode2 now2 in
  (fst r1, fst r2).

(** A polling scenario: one bridge with one heat-recovery unit that
    reports the host [192.168.1.50]. *)
Definition one_hru_api : Coordinator.cloud_api :=
  Coordinator.mk_cloud_api None (Coordinator.ApiOk ["bridge1"])
    (fun _ => Coordinator.ApiOk
       [Coordinator.mk_device_data "hru1" "0001c89f"
          (Some Coordinator.HEAT_RECOVERY_UNIT) "192.168.1.50"]).

(** Reads over Modbus fail, reads over the cloud succeed. *)
Definition modbus_down (cl : Coordinator.client) : bool :=
  match cl with Coordinator.ModbusClient _ => false | Coordinator.CloudClient _ => true end.

(* ========================================================================= *)
(** * Properties *)

Ltac check_cases :=
  repeat match goal with
  | |- context [if ?b then _ else _] => destruct b
  | |- context [match ?x with Some _ => _ | None => _ end] => destruct x
  end;
  first [ left; reflexivity | right; eexists; reflexivity ].


(** ** Helper lemmas on the check *)

Lemma mode_ne_true (current_mode : option string) (m : string) :
  current_mode <> Some m -> mode_ne current_mode m = true.
Proof.
  destruct current_mode as [c|]; simpl; [|reflexivity].
  intros H. destruct (String.eqb_spec c m); [subst; congruence | reflexivity].
Qed.

Lemma mode_ne_false (m : string) : mode_ne (Some m) m = false.
Proof. simpl. rewrite String.eqb_refl. reflexivity. Qed.

Lemma cooldown_elapsed (last : option Z) (now cooldown : Z) :
  (forall t, last = Some t -> cooldown <= now - t) ->
  cooldown_active last now cooldown = false.
Proof.
  destruct last as [t|]; simpl; [|reflexivity].
  intros H. specialize (H t eq_refl). apply Z.ltb_ge. exact H.
Qed.

Lemma cooldown_running (t now cooldown : Z) :
  now - t < cooldown -> cooldown_active (Some t) now cooldown = true.
Proof. simpl. apply Z.ltb_lt. Qed.

Lemma Mixin_at_most_one st o cur mode now :
  at_most_one (Mixin.check_humidity_control st o cur mode now) st now.
Proof. unfold at_most_one, Mixin.check_humidity_control. check_cases. Qed.

Lemma Humidifier_at_most_one st o cur mode now :
  at_most_one (Humidifier.check_humidity_control st o cur mode now) st now.
Proof. unfold at_most_one, Humidifier.check_humidity_control. check_cases. Qed.

Lemma Climate_at_most_one st o cur mode now :
  at_most_one (Climate.check_humidity_control st o cur mode now) st now.
Proof. unfold at_most_one, Climate.check_humidity_control. check_cases. Qed.

(** ** C1: above the upper threshold the high mode is set once *)

(** C1. When control is enabled, the reading and the target are present, the
    cooldown has elapsed, the reading is strictly above the upper threshold
    and the current mode is not the high mode, the check of the mixin and the
    check of the humidifier each issue exactly one mode-set call, with the
    configured high mode, and record the current time as the last mode change.
    Each check compares against its own upper threshold. *)
Theorem check_sets_high_mode :
  forall (st : hc_state) (o : options) (cur target : Z)
         (current_mode : option string) (now : Z),
    st.(hc_enabled) = true ->
    o.(opt_target) = Some target ->
    (forall t, st.(hc_last_mode_change) = Some t ->
               get o.(opt_cooldown) DEFAULT_HUMIDITY_COOLDOWN <= now - t) ->
    current_mode <> Some (get o.(opt_high_mode) DEFAULT_HUMIDITY_HIGH_MODE) ->
    let hysteresis := get o.(opt_hysteresis) DEFAULT_HUMIDITY_HYSTERESIS in
    let high_mode := get o.(opt_high_mode) DEFAULT_HUMIDITY_HIGH_MODE in
    (cur > Mixin.upper_threshold target hysteresis ->
     Mixin.check_humidity_control st o (Some cur) current_mode now
     = ([high_mode], mk_hc true (Some now))) /\
    (cur > Humidifier.upper_threshold target hysteresis ->
     Humidifier.check_humidity_control st o (Some cur) current_mode now
     = ([high_mode], mk_hc true (Some now))).
Proof.
  intros st o cur target current_mode now Hen Ht Hcd Hmode hysteresis high_mode.
  pose proof (cooldown_elapsed _ _ _ Hcd) as Hc.
  pose proof (mode_ne_true _ _ Hmode) as Hm.
  split; intros Hup.
  - unfold Mixin.check_humidity_control, Mixin.get_humidity_config.
    rewrite Hen. cbn [negb Mixin.cfg_target Mixin.cfg_cooldown Mixin.cfg_hysteresis
                      Mixin.cfg_high_mode Mixin.cfg_low_mode].
    rewrite Ht, Hc, Hm.
    replace (Mixin.upper_threshold target (get (opt_hysteresis o) DEFAULT_HUMIDITY_HYSTERESIS) <? cur)
      with true by (symmetry; apply Z.ltb_lt; apply Z.gt_lt; exact Hup).
    cbn. unfold record_change. rewrite Hen. reflexivity.
  - unfold Humidifier.check_humidity_control.
    rewrite Hen. cbn [negb]. rewrite Ht.
    unfold Humidifier.HUMIDITY_CONTROL_COOLDOWN. unfold DEFAULT_HUMIDITY_COOLDOWN in Hc.
    rewrite Hc.
    replace (Humidifier.upper_threshold target (get (opt_hysteresis o) 5) <? cur)
      with true by (symmetry; apply Z.ltb_lt; apply Z.gt_lt; exact Hup).
    unfold DEFAULT_HUMIDITY_HIGH_MODE in Hm.
    rewrite Hm. unfold record_change. rewrite Hen. reflexivity.
Qed.

(** A concrete use of [check_sets_high_mode]: target 60, hysteresis 5, a
    reading of 70, mode [home], no previous change. *)
Lemma check_sets_high_mode_witness :
  let o := mk_options (Some 5) (Some 60) (Some "party") (Some "home") (Some 60) in
  let st := mk_hc true None in
  Mixin.check_humidity_control st o (Some 70) (Some "home") 1000
    = (["party"], mk_hc true (Some 1000)) /\
  Humidifier.check_humidity_control st o (Some 70) (Some "home") 1000
    = (["party"], mk_hc true (Some 1000)).
Proof.
  intros o st.
  destruct (check_sets_high_mode st o 70 60 (Some "home") 1000
              eq_refl eq_refl
              ltac:(intros t Ht; discriminate Ht)
              ltac:(intros H; discriminate H)) as [H1 H2].
  split; [apply H1 | apply H2]; vm_compute; reflexivity.
Defined.

(** ** C3: clamping of the thresholds *)

(** C3 (failing input). With target 98, hysteresis 5, a reading of 100 and
    mode [home], the mixin compares against [min(98 + 5, 99) = 99] and sets
    the high mode, while the climate and humidifier entities, which are the
    entities that run the check, compare against the unclamped [103] and do
    nothing. *)
Theorem entity_thresholds_not_clamped :
  let o := mk_options (Some 5) (Some 98) (Some "party") (Some "home") (Some 60) in
  let st := mk_hc true None in
  Mixin.upper_threshold 98 5 = 99 /\
  Climate.upper_threshold 98 5 = 103 /\
  Humidifier.upper_threshold 98 5 = 103 /\
  Mixin.check_humidity_control st o (Some 100) (Some "home") 0
    = (["party"], mk_hc true (Some 0)) /\
  Climate.check_humidity_control st o (Some 100) (Some "home") 0 = ([], st) /\
  Humidifier.check_humidity_control st o (Some 100) (Some "home") 0 = ([], st).
Proof. vm_compute. repeat split. Qed.

(** ** C4: no action inside the hysteresis band *)

(** C4. For a reading between the lower and the upper threshold, bounds
    included, each of the three checks issues no mode-set call and leaves the
    humidity-control state (hence [last_mode_change]) unchanged, whatever the
    current mode. With target 60 and hysteresis 5 a reading of 65 does not
    set the high mode and a reading of 66 does. *)
Theorem check_band_no_action :
  (forall (st : hc_state) (o : options) (cur target : Z)
          (current_mode : option string) (now : Z),
     o.(opt_target) = Some target ->
     let hysteresis := get o.(opt_hysteresis) DEFAULT_HUMIDITY_HYSTERESIS in
     (Mixin.lower_threshold target hysteresis <= cur <= Mixin.upper_threshold target hysteresis ->
      Mixin.check_humidity_control st o (Some cur) current_mode now = ([], st)) /\
     (Humidifier.lower_threshold target hysteresis <= cur
        <= Humidifier.upper_threshold target hysteresis ->
      Humidifier.check_humidity_control st o (Some cur) current_mode now = ([], st)) /\
     (Climate.lower_threshold target hysteresis <= cur <= Climate.upper_threshold target hysteresis ->
      Climate.check_humidity_control st o (Some cur) current_mode now = ([], st))) /\
  (let o := mk_options (Some 5) (Some 60) None None None in
   let st := mk_hc true None in
   Mixin.upper_threshold 60 5 = 65 /\ Mixin.lower_threshold 60 5 = 55 /\
   Mixin.check_humidity_control st o (Some 65) (Some "home") 0 = ([], st) /\
   Mixin.check_humidity_control st o (Some 66) (Some "home") 0
     = (["home_plus"], mk_hc true (Some 0)) /\
   Humidifier.check_humidity_control st o (Some 65) (Some "home") 0 = ([], st) /\
   Humidifier.check_humidity_control st o (Some 66) (Some "home") 0
     = (["home_plus"], mk_hc true (Some 0)) /\
   Climate.check_humidity_control st o (Some 65) (Some "home") 0 = ([], st) /\
   Climate.check_humidity_control st o (Some 66) (Some "home") 0
     = (["party"], mk_hc true (Some 0))).
Proof.
  split; [|vm_compute; repeat split].
  intros st o cur target current_mode now Ht hysteresis.
  repeat split; intros [Hlo Hhi].
  - unfold Mixin.check_humidity_control, Mixin.get_humidity_config.
    cbn [Mixin.cfg_target Mixin.cfg_cooldown Mixin.cfg_hysteresis
         Mixin.cfg_high_mode Mixin.cfg_low_mode].
    rewrite Ht.
    replace (Mixin.upper_threshold target (get (opt_hysteresis o) DEFAULT_HUMIDITY_HYSTERESIS) <? cur)
      with false by (symmetry; apply Z.ltb_ge; exact Hhi).
    replace (cur <? Mixin.lower_threshold target (get (opt_hysteresis o) DEFAULT_HUMIDITY_HYSTERESIS))
      with false by (symmetry; apply Z.ltb_ge; exact Hlo).
    cbn [andb]. destruct (negb (hc_enabled st)); [reflexivity|].
    destruct (cooldown_active _ _ _); reflexivity.
  - unfold Humidifier.check_humidity_control. rewrite Ht.
    unfold DEFAULT_HUMIDITY_HYSTERESIS in Hlo, Hhi.
    replace (Humidifier.upper_threshold target (get (opt_hysteresis o) 5) <? cur)
      with false by (symmetry; apply Z.ltb_ge; exact Hhi).
    replace (cur <? Humidifier.lower_threshold target (get (opt_hysteresis o) 5))
      with false by (symmetry; apply Z.ltb_ge; exact Hlo).
    cbn [andb]. destruct (negb (hc_enabled st)); [reflexivity|].
    destruct (cooldown_active _ _ _); reflexivity.
  - unfold Climate.check_humidity_control. rewrite Ht.
    unfold DEFAULT_HUMIDITY_HYSTERESIS in Hlo, Hhi.
    replace (Climate.upper_threshold target (get (opt_hysteresis o) 5) <? cur)
      with false by (symmetry; apply Z.ltb_ge; exact Hhi).
    replace (cur <? Climate.lower_threshold target (get (opt_hysteresis o) 5))
      with false by (symmetry; apply Z.ltb_ge; exact Hlo).
    cbn [andb]. destruct (negb (hc_enabled st)); [reflexivity|].
    destruct (cooldown_active _ _ _); reflexivity.
Qed.

(** A concrete use of [check_band_no_action]: target 40, hysteresis 10,
    a reading of 50 (the upper bound) in mode [away]. *)
Lemma check_band_no_action_witness :
  let o := mk_options (Some 10) (Some 40) None None None in
  Mixin.check_humidity_control (mk_hc true None) o (Some 50) (Some "away") 0
    = ([], mk_hc true None).
Proof.
  intros o.
  exact (proj1 (proj1 check_band_no_action (mk_hc true None) o 50 40 (Some "away") 0 eq_refl)
           ltac:(vm_compute; split; discriminate)).
Defined.

(** ** C5: two checks within the cooldown issue at most one command *)

Lemma Mixin_second_in_cooldown st o cur mode now1 now2 :
  now2 - now1 < get o.(opt_cooldown) DEFAULT_HUMIDITY_COOLDOWN ->
  fst (Mixin.check_humidity_control (record_change st now1) o cur mode now2) = [].
Proof.
  intros Hlt. unfold Mixin.check_humidity_control, Mixin.get_humidity_config.
  cbn [Mixin.cfg_target Mixin.cfg_cooldown hc_last_mode_change record_change].
  destruct (negb _); [reflexivity|].
  destruct cur; [|reflexivity]. destruct (opt_target o); [|reflexivity].
  rewrite (cooldown_running _ _ _ Hlt). reflexivity.
Qed.

Lemma Humidifier_second_in_cooldown st o cur mode now1 now2 :
  now2 - now1 < get o.(opt_cooldown) Humidifier.HUMIDITY_CONTROL_COOLDOWN ->
  fst (Humidifier.check_humidity_control (record_change st now1) o cur mode now2) = [].
Proof.
  intros Hlt. unfold Humidifier.check_humidity_control.
  cbn [hc_last_mode_change record_change].
  destruct (negb _); [reflexivity|].
  destruct cur; [|reflexivity]. destruct (opt_target o); [|reflexivity].
  rewrite (cooldown_running _ _ _ Hlt). reflexivity.
Qed.

Lemma twice_at_most_one check st o cur1 cur2 mode1 mode2 now1 now2 :
  at_most_one (check st o cur1 mode1 now1) st now1 ->
  (forall st' cur mode now, exists l, fst (check st' o cur mode now) = l /\ (length l <= 1)%nat) ->
  (fst (check (record_change st now1) o cur2 mode2 now2) = []) ->
  let '(c1, c2) := twice check st o cur1 cur2 mode1 mode2 now1 now2 in
  (length (c1 ++ c2) <= 1)%nat /\ (c1 <> [] -> c2 = []).
Proof.
  intros Hfirst Hlen Hsecond. unfold twice.
  destruct Hfirst as [E | [m E]]; rewrite E; cbn [fst snd].
  - destruct (Hlen st cur2 mode2 now2) as [l [El Hl]]. rewrite El.
    split; [exact Hl | intros H; contradiction].
  - rewrite Hsecond. split; [simpl; lia | intros _; reflexivity].
Qed.

Lemma Mixin_length st o cur mode now :
  exists l, fst (Mixin.check_humidity_control st o cur mode now) = l /\ (length l <= 1)%nat.
Proof.
  destruct (Mixin_at_most_one st o cur mode now) as [E | [m E]]; rewrite E;
    eexists; split; [reflexivity | simpl; lia | reflexivity | simpl; lia].
Qed.

Lemma Humidifier_length st o cur mode now :
  exists l, fst (Humidifier.check_humidity_control st o cur mode now) = l /\ (length l <= 1)%nat.
Proof.
  destruct (Humidifier_at_most_one st o cur mode now) as [E | [m E]]; rewrite E;
    eexists; split; [reflexivity | simpl; lia | reflexivity | simpl; lia].
Qed.

(** C5. Two checks of the mixin, or two checks of the humidifier, run one
    after the other with the same options, the second one less than the
    configured cooldown after the first: together they issue at most one
    mode-set call, and if the first one issued a call the second issues none. *)
Theorem check_twice_within_cooldown :
  forall (st : hc_state) (o : options) (cur1 cur2 : option Z)
         (mode1 mode2 : option string) (now1 now2 : Z),
    now2 - now1 < get o.(opt_cooldown) DEFAULT_HUMIDITY_COOLDOWN ->
    (let '(c1, c2) := twice Mixin.check_humidity_control st o cur1 cur2 mode1 mode2 now1 now2 in
     (length (c1 ++ c2) <= 1)%nat /\ (c1 <> [] -> c2 = [])) /\
    (let '(c1, c2) := twice Humidifier.check_humidity_control st o cur1 cur2 mode1 mode2 now1 now2 in
     (length (c1 ++ c2) <= 1)%nat /\ (c1 <> [] -> c2 = [])).
Proof.
  intros st o cur1 cur2 mode1 mode2 now1 now2 Hlt. split.
  - apply twice_at_most_one.
    + apply Mixin_at_most_one.
    + intros; apply Mixin_length.
    + apply Mixin_second_in_cooldown. exact Hlt.
  - apply twice_at_most_one.
    + apply Humidifier_at_most_one.
    + intros; apply Humidifier_length.
    + apply Humidifier_second_in_cooldown. exact Hlt.
Qed.

(** The end-to-end scenario: target 60, hysteresis 5, [party]/[home],
    cooldown 60 s, a reading of 70: the first check sets [party], a second
    one 10 s later issues nothing. *)
Lemma check_twice_within_cooldown_witness :
  let o := mk_options (Some 5) (Some 60) (Some "party") (Some "home") (Some 60) in
  let st := mk_hc true None in
  twice Mixin.check_humidity_control st o (Some 70) (Some 70) (Some "home") (Some "party") 0 10
    = (["party"], []) /\
  (let '(c1, c2) := twice Mixin.check_humidity_control st o (Some 70) (Some 70)
                      (Some "home") (Some "party") 0 10 in
   (length (c1 ++ c2) <= 1)%nat /\ (c1 <> [] -> c2 = [])).
Proof.
  intros o st. split; [vm_compute; reflexivity|].
  exact (proj1 (check_twice_within_cooldown st o (Some 70) (Some 70)
                  (Some "home") (Some "party") 0 10 ltac:(vm_compute; reflexivity))).
Defined.

(** ** C7: the three implementations of the check *)

(** C7 (counterexample). The climate entity differs from the humidifier and
    the mixin by design: with no high-mode option it sets [party] where they
    set [home_plus], and it applies its fixed 120 s cooldown where they apply
    the configured one (60 s here). *)
Lemma implementations_differ :
  let o := mk_options (Some 5) (Some 60) None (Some "home") (Some 60) in
  Climate.check_humidity_control (mk_hc true None) o (Some 70) (Some "home") 0
    = (["party"], mk_hc true (Some 0)) /\
  Humidifier.check_humidity_control (mk_hc true None) o (Some 70) (Some "home") 0
    = (["home_plus"], mk_hc true (Some 0)) /\
  Mixin.check_humidity_control (mk_hc true None) o (Some 70) (Some "home") 0
    = (["home_plus"], mk_hc true (Some 0)) /\
  Climate.check_humidity_control (mk_hc true (Some 0)) o (Some 70) (Some "home") 90
    = ([], mk_hc true (Some 0)) /\
  Humidifier.check_humidity_control (mk_hc true (Some 0)) o (Some 70) (Some "home") 90
    = (["home_plus"], mk_hc true (Some 90)) /\
  Climate.check_humidity_control (mk_hc true None) o (Some 70) (Some "home") 0
    <> Humidifier.check_humidity_control (mk_hc true None) o (Some 70) (Some "home") 0.
Proof.
  vm_compute. repeat split. intros H. injection H as H. discriminate H.
Qed.

Lemma mixin_thresholds_unclamped target h :
  0 <= h -> 1 <= target - h -> target + h <= 99 ->
  Mixin.upper_threshold target h = target + h /\ Mixin.lower_threshold target h = target - h.
Proof. intros. unfold Mixin.upper_threshold, Mixin.lower_threshold. lia. Qed.

(** C7 (amended). Given the same options, state, reading, mode and clock, and
    a hysteresis [h >= 0] with [target - h >= 1] and [target + h <= 99]
    (where the mixin's clamping has no effect), the mixin and the humidifier
    decide the same; the climate entity decides the same as the humidifier
    when, in addition, the high-mode option is set and its fixed 120 s
    cooldown and the configured one agree on whether a cooldown is running
    (no change recorded yet, a configured cooldown of 120 s, or a time since
    the last change below both or at least both). *)
Theorem implementations_agree :
  forall (st : hc_state) (o : options) (cur : option Z)
         (current_mode : option string) (now : Z),
    let h := get o.(opt_hysteresis) DEFAULT_HUMIDITY_HYSTERESIS in
    (forall target, o.(opt_target) = Some target ->
       0 <= h /\ 1 <= target - h /\ target + h <= 99) ->
    Mixin.check_humidity_control st o cur current_mode now
      = Humidifier.check_humidity_control st o cur current_mode now /\
    (o.(opt_high_mode) <> None ->
     cooldown_active st.(hc_last_mode_change) now Climate.HUMIDITY_CONTROL_COOLDOWN
       = cooldown_active st.(hc_last_mode_change) now
           (get o.(opt_cooldown) DEFAULT_HUMIDITY_COOLDOWN) ->
     Climate.check_humidity_control st o cur current_mode now
       = Humidifier.check_humidity_control st o cur current_mode now).
Proof.
  intros st o cur current_mode now h Hb.
  unfold Mixin.check_humidity_control, Mixin.get_humidity_config,
         Humidifier.check_humidity_control, Climate.check_humidity_control.
  cbn [Mixin.cfg_target Mixin.cfg_cooldown Mixin.cfg_hysteresis
       Mixin.cfg_high_mode Mixin.cfg_low_mode].
  destruct (negb (hc_enabled st)); [split; [reflexivity | intros; reflexivity]|].
  destruct cur as [cur|]; [|split; [reflexivity | intros; reflexivity]].
  destruct (opt_target o) as [target|] eqn:Ht; [|split; [reflexivity | intros; reflexivity]].
  destruct (Hb target eq_refl) as [H0 [H1 H2]].
  destruct (mixin_thresholds_unclamped target h H0 H1 H2) as [Eu El].
  unfold h, DEFAULT_HUMIDITY_HYSTERESIS in Eu, El, H0, H1, H2.
  unfold Humidifier.upper_threshold, Humidifier.lower_threshold,
         Climate.upper_threshold, Climate.lower_threshold,
         Humidifier.HUMIDITY_CONTROL_COOLDOWN, DEFAULT_HUMIDITY_COOLDOWN,
         DEFAULT_HUMIDITY_HIGH_MODE, DEFAULT_HUMIDITY_LOW_MODE,
         DEFAULT_HUMIDITY_HYSTERESIS.
  rewrite Eu, El.
  set (hy := get (opt_hysteresis o) 5) in *.
  assert (Hdis : forall c, (target + hy <? c) = true -> (c <? target - hy) = false).
  { intros c Hc. apply Z.ltb_lt in Hc. apply Z.ltb_ge. lia. }
  split.
  - destruct (cooldown_active _ _ _); [reflexivity|].
    destruct (target + hy <? cur) eqn:Eup; cbn [andb].
    + rewrite (Hdis cur Eup). cbn [andb].
      destruct (mode_ne _ _); reflexivity.
    + reflexivity.
  - intros Hhigh Hcd.
    destruct (opt_high_mode o) as [high|]; [|congruence]. cbn [get].
    unfold DEFAULT_HUMIDITY_COOLDOWN in Hcd. rewrite Hcd.
    destruct (cooldown_active (hc_last_mode_change st) now (get (opt_cooldown o) 60));
      [reflexivity|].
    destruct (target + hy <? cur) eqn:Eup; cbn [andb].
    + rewrite (Hdis cur Eup). cbn [andb].
      destruct (mode_ne _ _); reflexivity.
    + reflexivity.
Qed.

(** A concrete use of [implementations_agree]: default 60 s cooldown, last
    change 130 s ago, so neither cooldown is running. *)
Lemma implementations_agree_witness :
  let o := mk_options (Some 5) (Some 60) (Some "party") (Some "home") None in
  Climate.check_humidity_control (mk_hc true (Some 0)) o (Some 70) (Some "home") 130
    = Humidifier.check_humidity_control (mk_hc true (Some 0)) o (Some 70) (Some "home") 130.
Proof.
  intros o.
  refine (proj2 (implementations_agree (mk_hc true (Some 0)) o (Some 70) (Some "home") 130 _)
            _ _).
  - intros target Ht. injection Ht as <-. vm_compute. repeat split; discriminate.
  - discriminate.
  - reflexivity.
Defined.

(** ** C9: out-of-range target humidity is rejected *)

(** C9. [async_set_humidity] with a value outside [0, 100], on the
    humidifier or on the climate entity, only logs an error: the entity
    (cached target, persisted options, humidity-control state) is returned
    unchanged, no options update is written and no check runs. *)
Theorem set_humidity_out_of_range :
  forall (humidity : Z) (w : world),
    ~ (0 <= humidity <= 100) ->
    (forall e : HumidifierEntity.entity,
       HumidifierEntity.async_set_humidity e humidity w = (e, [LogError])) /\
    (forall e : ClimateEntity.entity,
       ClimateEntity.async_set_humidity e humidity w = (e, [LogError])).
Proof.
  intros humidity w Hout.
  assert (Hb : (0 <=? humidity) && (humidity <=? 100) = false).
  { destruct (0 <=? humidity) eqn:E1; destruct (humidity <=? 100) eqn:E2; try reflexivity.
    apply Z.leb_le in E1. apply Z.leb_le in E2. exfalso. apply Hout. split; assumption. }
  split; intros e.
  - unfold HumidifierEntity.async_set_humidity. rewrite Hb. reflexivity.
  - unfold ClimateEntity.async_set_humidity. rewrite Hb. reflexivity.
Qed.

(** A concrete use of [set_humidity_out_of_range]: a target of 150 on an
    entity with control enabled. *)
Lemma set_humidity_out_of_range_witness :
  let e := HumidifierEntity.mk_entity
             (mk_options (Some 5) (Some 60) None None None) (Some 60) (mk_hc true None) in
  HumidifierEntity.async_set_humidity e 150 (mk_world (Some 80) (Some "home") 0) = (e, [LogError]).
Proof.
  intros e.
  exact (proj1 (set_humidity_out_of_range 150 (mk_world (Some 80) (Some "home") 0)
                  ltac:(lia)) e).
Defined.

(** ** C10: aggregation of the sensor readings *)


(** C10 (failing input). A sensor whose state is ["inf"] parses as a float,
    and [int(float("inf"))] raises [OverflowError], which the loop does not
    catch: the aggregation raises instead of skipping the reading, even when
    another sensor reports a usable value. *)
Theorem current_humidity_inf_raises :
  forall (py_float : string -> option float_val) (states_get : string -> option string)
         (s1 s2 : string),
    states_get s1 = Some "65.9" -> py_float "65.9" = Some (FFinite double_65_9) ->
    states_get s2 = Some "inf" -> py_float "inf" = Some FInf ->
    current_humidity py_float states_get [s1] = inl (Some 65) /\
    current_humidity py_float states_get [s1; s2] = inr OverflowError.
Proof.
  intros py_float states_get s1 s2 H1 P1 H2 P2.
  unfold current_humidity. cbn [collect].
  rewrite H1, H2. cbn [String.eqb STATE_UNAVAILABLE STATE_UNKNOWN orb].
  rewrite P1, P2. vm_compute. split; reflexivity.
Qed.

(** A concrete use of [current_humidity_inf_raises]. *)
Lemma current_humidity_inf_raises_witness :
  let py_float := fun s : string =>
    if String.eqb s "inf" then Some FInf
    else if String.eqb s "65.9" then Some (FFinite double_65_9) else None in
  let states_get := fun id : string =>
    if String.eqb id "sensor.bathroom" then Some "65.9"
    else if String.eqb id "sensor.kitchen" then Some "inf" else None in
  current_humidity py_float states_get ["sensor.bathroom"; "sensor.kitchen"] = inr OverflowError.
Proof.
  intros py_float states_get.
  exact (proj2 (current_humidity_inf_raises py_float states_get
                  "sensor.bathroom" "sensor.kitchen" eq_refl eq_refl eq_refl eq_refl)).
Defined.

(** Without infinite readings the aggregation is the maximum of the
    truncated readings, [None] when there is none. *)
Lemma collect_finite py_float states_get ids acc :
  (forall id s, In id ids -> states_get id = Some s ->
     py_float s <> Some FInf /\ py_float s <> Some FNegInf) ->
  collect py_float states_get ids acc = inl (acc ++ truncated_readings py_float states_get ids).
Proof.
  revert acc. induction ids as [|id rest IH]; intros acc Hfin; cbn.
  - rewrite app_nil_r. reflexivity.
  - assert (Hrest : forall id' s, In id' rest -> states_get id' = Some s ->
                      py_float s <> Some FInf /\ py_float s <> Some FNegInf)
      by (intros id' s Hin; apply Hfin; right; exact Hin).
    destruct (states_get id) as [s|] eqn:Es; [|apply IH; exact Hrest].
    destruct (String.eqb s STATE_UNAVAILABLE || String.eqb s STATE_UNKNOWN);
      [apply IH; exact Hrest|].
    destruct (Hfin id s (or_introl eq_refl) Es) as [Hi Hn].
    destruct (py_float s) as [f|]; [|apply IH; exact Hrest].
    destruct f as [q| | |]; cbn.
    + rewrite IH by exact Hrest. rewrite <- app_assoc. reflexivity.
    + congruence.
    + congruence.
    + apply IH. exact Hrest.
Qed.

Lemma current_humidity_finite py_float states_get ids :
  (forall id s, In id ids -> states_get id = Some s ->
     py_float s <> Some FInf /\ py_float s <> Some FNegInf) ->
  current_humidity py_float states_get ids
    = inl (py_max (truncated_readings py_float states_get ids)).
Proof.
  intros Hfin. unfold current_humidity. destruct ids as [|id rest]; [reflexivity|].
  rewrite (collect_finite py_float states_get (id :: rest) [] Hfin). reflexivity.
Qed.

Lemma double_65_9_truncates : Z.quot (Qnum double_65_9) (Zpos (Qden double_65_9)) = 65.
Proof. vm_compute. reflexivity. Qed.

(** ** Coordinator *)

Module CoordinatorFacts.
Import Coordinator.

Lemma dict_get_set_same {V} (d : dict V) k v : dict_get (dict_set d k v) k = Some v.
Proof.
  induction d as [|[k' v'] r IH]; cbn.
  - rewrite String.eqb_refl. reflexivity.
  - destruct (String.eqb_spec k' k); cbn.
    + rewrite String.eqb_refl. reflexivity.
    + destruct (String.eqb_spec k' k); [contradiction | exact IH].
Qed.

Lemma dict_get_set_other {V} (d : dict V) k k' v :
  k <> k' -> dict_get (dict_set d k v) k' = dict_get d k'.
Proof.
  intros Hne. induction d as [|[j w] r IH]; cbn.
  - destruct (String.eqb_spec k k'); [contradiction | reflexivity].
  - destruct (String.eqb_spec j k); cbn.
    + subst j. destruct (String.eqb_spec k k'); [contradiction | reflexivity].
    + destruct (String.eqb_spec j k'); [reflexivity | exact IH].
Qed.

Lemma create_controller_client cl d ctl :
  _create_controller cl d = Some ctl -> ctl.(ctl_client) = cl.
Proof.
  unfold _create_controller. destruct (product_type d); intros H; inversion H; reflexivity.
Qed.

Lemma creations_app ev1 ev2 : creations (ev1 ++ ev2) = creations ev1 ++ creations ev2.
Proof. unfold creations. apply flat_map_app. Qed.

(** C6. When the coordinator's API is set (as it is in [_async_setup]) and
    the device has no candidate local address or the Modbus connection to
    it fails, [_setup_device_connection] registers the cloud client
    [CloudClient(api, device_id)], calls [_create_controller] exactly once,
    over that cloud client, and records the controller with mode [cloud] if
    construction succeeds; if it fails, the recorded controllers and
    connection modes are left as they were. *)
Theorem setup_falls_back_to_cloud :
  forall (modbus_connect : string -> bool) (local_ips : dict string)
         (c : coord) (d : device) (dev_id : string),
    c.(api) = true ->
    (candidate_ip local_ips d dev_id = "" \/
     modbus_connect (candidate_ip local_ips d dev_id) = false) ->
    let r := _setup_device_connection modbus_connect local_ips c d dev_id in
    creations (snd r) = [CloudClient dev_id] /\
    dict_get (fst r).(cloud_clients) dev_id = Some (CloudClient dev_id) /\
    (forall ctl, _create_controller (CloudClient dev_id) d = Some ctl ->
       dict_get (fst r).(controllers) dev_id = Some ctl /\
       ctl.(ctl_client) = CloudClient dev_id /\
       dict_get (fst r).(connection_modes) dev_id = Some CONNECTION_MODE_CLOUD) /\
    (_create_controller (CloudClient dev_id) d = None ->
       (fst r).(controllers) = c.(controllers) /\
       (fst r).(connection_modes) = c.(connection_modes)).
Proof.
  intros modbus_connect local_ips c d dev_id Hapi Hfail r.
  assert (Hlocal : negb (String.eqb (candidate_ip local_ips d dev_id) "")
                   && modbus_connect (candidate_ip local_ips d dev_id) = false).
  { destruct Hfail as [He | Hm].
    - rewrite He. reflexivity.
    - rewrite Hm. apply andb_false_r. }
  assert (Hev : creations (if String.eqb (candidate_ip local_ips d dev_id) "" then []
                           else [EvModbusConnect (candidate_ip local_ips d dev_id)]) = []).
  { destruct (String.eqb _ _); reflexivity. }
  unfold r, _setup_device_connection. rewrite Hlocal, Hapi. cbn [negb].
  unfold finish_setup.
  destruct (_create_controller (CloudClient dev_id) d) as [ctl|] eqn:Ec.
  - cbn [fst snd]. rewrite creations_app, Hev. split; [reflexivity|].
    split; [apply dict_get_set_same|].
    split; [|discriminate].
    intros ctl' Hc. injection Hc as <-.
    split; [apply dict_get_set_same|].
    split; [apply (create_controller_client _ _ _ Ec) | apply dict_get_set_same].
  - cbn [fst snd]. rewrite creations_app, Hev. split; [reflexivity|].
    split; [apply dict_get_set_same|].
    split; [discriminate|]. intros _. split; reflexivity.
Qed.

(** A concrete use of [setup_falls_back_to_cloud]: a heat-recovery unit
    whose configured local address does not answer. *)
Lemma setup_falls_back_to_cloud_witness :
  let c := mk_coord true [] [] [] [] [] UPDATE_INTERVAL_CLOUD in
  let d := mk_device "hru1" "0001c89f" HEAT_RECOVERY_UNIT "" in
  let local_ips := [("hru1", "192.168.1.50")] in
  let r := _setup_device_connection (fun _ => false) local_ips c d "hru1" in
  creations (snd r) = [CloudClient "hru1"] /\
  dict_get (fst r).(connection_modes) "hru1" = Some CONNECTION_MODE_CLOUD.
Proof.
  intros c d local_ips r.
  destruct (setup_falls_back_to_cloud (fun _ => false) local_ips c d "hru1"
              eq_refl (or_intror eq_refl)) as [H1 [_ [H3 _]]].
  split; [exact H1|].
  exact (proj2 (proj2 (H3 (mk_controller HeatRecoveryUnitController (CloudClient "hru1"))
                         eq_refl))).
Defined.

End CoordinatorFacts.

Module CoordinatorRuntime.
Import Coordinator.

(** On the local path [_setup_device_connection] leaves [cloud_clients]
    untouched: a device that connects locally at setup has no cloud client. *)
Lemma setup_local_no_cloud_client modbus_connect local_ips c d dev_id :
  String.eqb (candidate_ip local_ips d dev_id) "" = false ->
  modbus_connect (candidate_ip local_ips d dev_id) = true ->
  (fst (_setup_device_connection modbus_connect local_ips c d dev_id)).(cloud_clients)
    = c.(cloud_clients).
Proof.
  intros He Hm. unfold _setup_device_connection. rewrite He, Hm. cbn [negb andb].
  unfold finish_setup. destruct (_create_controller _ _); reflexivity.
Qed.

(** C2 (failing input). The unit connects over Modbus at setup, so it is in
    local mode and, the local path never creating one, has no cloud client.
    In the next polling cycle its local read fails while the cloud would
    answer: no cloud controller is built, no read is retried, the unit is
    left out of the cycle's states and stays in local mode; the following
    cycle repeats this. *)
Theorem runtime_fallback_never_taken :
  exists c ev,
    _async_setup one_hru_api (fun _ => true) [] init_coord = inl (c, ev) /\
    dict_get c.(connection_modes) "hru1" = Some CONNECTION_MODE_LOCAL /\
    dict_get c.(cloud_clients) "hru1" = None /\
    (let '(c1, states1, ev1) := _async_update_data modbus_down c in
     states1 = [] /\ creations ev1 = [] /\
     reads ev1 = [ModbusClient "192.168.1.50"] /\
     dict_get c1.(connection_modes) "hru1" = Some CONNECTION_MODE_LOCAL /\
     (let '(c2, states2, ev2) := _async_update_data modbus_down c1 in
      states2 = [] /\ creations ev2 = [] /\
      reads ev2 = [ModbusClient "192.168.1.50"] /\
      dict_get c2.(connection_modes) "hru1" = Some CONNECTION_MODE_LOCAL)).
Proof.
  do 2 eexists. split; [vm_compute; reflexivity|].
  vm_compute. repeat split.
Qed.

End CoordinatorRuntime.

Module CoordinatorSetup.
Import Coordinator.

Lemma discover_fails a modbus_connect local_ips bridges c ev b e :
  In b bridges -> a.(api_get_devices) b = ApiErr e ->
  discover a modbus_connect local_ips bridges c ev = inr UpdateFailed.
Proof.
  revert c ev. induction bridges as [|b0 rest IH]; intros c ev Hin He; [destruct Hin|].
  cbn. destruct (api_get_devices a b0) as [dds|e0] eqn:E0; [|reflexivity].
  destruct Hin as [<- | Hin]; [congruence|].
  destruct (setup_devices modbus_connect local_ips dds c ev) as [c1 ev1].
  apply IH; assumption.
Qed.

Lemma discover_no_auth_failure a modbus_connect local_ips bridges c ev :
  discover a modbus_connect local_ips bridges c ev <> inr ConfigEntryAuthFailed.
Proof.
  revert c ev. induction bridges as [|b0 rest IH]; intros c ev; cbn; [discriminate|].
  destruct (api_get_devices a b0) as [dds|e0]; [|discriminate].
  destruct (setup_devices modbus_connect local_ips dds c ev) as [c1 ev1]. apply IH.
Qed.

(** C8. During entry setup, an authentication failure of the cloud API's
    [connect] makes [_async_setup] raise [ConfigEntryAuthFailed], and it is
    the only way that exception arises; any other failure of [connect], of
    [get_bridges] or of [get_devices] makes it raise [UpdateFailed]. In
    every one of these cases [async_setup_entry] stops with the exception,
    before the coordinator is stored and the platforms are forwarded. *)
Theorem setup_failures_abort_entry :
  forall (a : cloud_api) (modbus_connect : string -> bool)
         (local_ips : dict string) (get_state_ok : client -> bool),
    (a.(api_connect) = Some CloudAuthenticationError ->
     async_setup_entry a modbus_connect local_ips get_state_ok
       = EntrySetupRaised ConfigEntryAuthFailed) /\
    (a.(api_connect) = Some OtherApiError ->
     async_setup_entry a modbus_connect local_ips get_state_ok
       = EntrySetupRaised UpdateFailed) /\
    (forall e, a.(api_connect) = None -> a.(api_get_bridges) = ApiErr e ->
     async_setup_entry a modbus_connect local_ips get_state_ok
       = EntrySetupRaised UpdateFailed) /\
    (forall bridges b e, a.(api_connect) = None -> a.(api_get_bridges) = ApiOk bridges ->
     In b bridges -> a.(api_get_devices) b = ApiErr e ->
     async_setup_entry a modbus_connect local_ips get_state_ok
       = EntrySetupRaised UpdateFailed) /\
    (async_setup_entry a modbus_connect local_ips get_state_ok
       = EntrySetupRaised ConfigEntryAuthFailed ->
     a.(api_connect) = Some CloudAuthenticationError).
Proof.
  intros a modbus_connect local_ips get_state_ok.
  unfold async_setup_entry, _async_setup.
  repeat split.
  - intros H. rewrite H. reflexivity.
  - intros H. rewrite H. reflexivity.
  - intros e H Hb. rewrite H, Hb. reflexivity.
  - intros bridges b e H Hb Hin He. rewrite H, Hb.
    erewrite discover_fails by eassumption. reflexivity.
  - destruct (api_connect a) as [[|]|]; [reflexivity | discriminate |].
    destruct (api_get_bridges a) as [bridges|e]; [|discriminate].
    destruct (discover a modbus_connect local_ips bridges _ []) as [[c ev]|x] eqn:Ed.
    + destruct (_async_update_data get_state_ok c) as [[c1 s] ev1]. discriminate.
    + intros Hx. injection Hx as ->. exfalso. eapply discover_no_auth_failure. exact Ed.
Qed.

(** A concrete use of [setup_failures_abort_entry]: the second bridge's
    device listing fails. *)
Lemma setup_failures_abort_entry_witness :
  let a := mk_cloud_api None (ApiOk ["b1"; "b2"])
             (fun b => if String.eqb b "b2" then ApiErr OtherApiError else ApiOk []) in
  async_setup_entry a (fun _ => true) [] (fun _ => true) = EntrySetupRaised UpdateFailed.
Proof.
  intros a.
  destruct (setup_failures_abort_entry a (fun _ => true) [] (fun _ => true))
    as [_ [_ [_ [H4 _]]]].
  exact (H4 ["b1"; "b2"] "b2" OtherApiError eq_refl eq_refl
            (or_intror (or_introl eq_refl)) eq_refl).
Defined.

End CoordinatorSetup.

(* ------------------------------------------------------------------------- *)
(** ** Entity service calls *)

Module ServiceFacts.

Lemma run_calls_cmd ok cmds c : In (Cmd c) (run_calls ok cmds) -> In c cmds.
Proof.
  induction cmds as [|x rest IH]; simpl; [tauto|].
  destruct (ok x); simpl.
  - intros [H|H]; [injection H as ->; auto | auto].
  - intros [H|[H|[]]]; [injection H as ->; auto | discriminate].
Qed.

(** When the last call is the refresh and no earlier call is one, the refresh
    is only reached after every earlier call returned. *)
Lemma run_calls_refresh_last ok cmds :
  ~ In CmdRefresh cmds ->
  In (Cmd CmdRefresh) (run_calls ok (cmds ++ [CmdRefresh])) ->
  forall c, In c cmds -> ok c = true.
Proof.
  induction cmds as [|x rest IH]; simpl; [tauto|].
  intros Hn Hin c [<-|Hc].
  - destruct (ok x) eqn:E; [reflexivity|].
    simpl in Hin. destruct Hin as [H|[H|[]]]; [|discriminate].
    injection H as H. exfalso. apply Hn. left. exact H.
  - destruct (ok x); simpl in Hin.
    + destruct Hin as [H|H].
      * injection H as H. exfalso. apply Hn. left. exact H.
      * apply (IH (fun H' => Hn (or_intror H')) H c Hc).
    + destruct Hin as [H|[H|[]]]; [|discriminate].
      injection H as H. exfalso. apply Hn. left. exact H.
Qed.


(** The speed commands of the nudge. *)
Lemma speed_nudge_speed standby speed s :
  In (CmdSetSpeed s) (speed_nudge standby speed) ->
  (standby = true /\ s = 0 /\ exists v, speed = Some v /\ 0 < v) \/
  (standby = false /\ s = 50 /\ speed = Some 0).
Proof.
  destruct speed as [v|]; simpl; [|tauto].
  destruct standby.
  - destruct (0 <? v) eqn:E; simpl; [|tauto].
    intros [H|[]]. injection H as <-. apply Z.ltb_lt in E. left. eauto.
  - destruct (v =? 0) eqn:E; simpl; [|tauto].
    intros [H|[]]. injection H as <-. apply Z.eqb_eq in E. subst v. right. auto.
Qed.

Lemma mode_speed_commands mode speed s :
  In (CmdSetSpeed s) ([CmdSetMode mode] ++ speed_nudge (String.eqb mode "standby") speed ++ [CmdRefresh]) ->
  (mode = "standby" /\ s = 0 /\ exists v, speed = Some v /\ 0 < v) \/
  (mode <> "standby" /\ s = 50 /\ speed = Some 0).
Proof.
  simpl. intros [H|H]; [discriminate|].
  apply in_app_or in H. destruct H as [H|[H|[]]]; [|discriminate].
  apply speed_nudge_speed in H.
  destruct H as [[E H]|[E H]]; [left|right].
  - apply String.eqb_eq in E. auto.
  - apply String.eqb_neq in E. auto.
Qed.

(** ** X1: a mode the SDK rejects is refused before any controller call *)

(** X1: [async_set_mode] of the humidifier and [async_set_fan_mode] of the
    climate entity call the controller (and the coordinator) only when a
    controller exists and [VentilationMode(mode)] accepts the mode; when the
    mode is rejected they only log an error. *)
Theorem unknown_mode_sends_nothing ventilation_mode has_controller speed call_ok mode :
  (ventilation_mode mode = false ->
   HumidifierService.async_set_mode ventilation_mode has_controller speed call_ok mode
     = [SvcLogError] /\
   ClimateService.async_set_fan_mode ventilation_mode has_controller speed call_ok mode
     = [SvcLogError]) /\
  ((exists c, In (Cmd c)
      (HumidifierService.async_set_mode ventilation_mode has_controller speed call_ok mode))
   <-> has_controller = true /\ ventilation_mode mode = true) /\
  ((exists c, In (Cmd c)
      (ClimateService.async_set_fan_mode ventilation_mode has_controller speed call_ok mode))
   <-> has_controller = true /\ ventilation_mode mode = true).
Proof.
  unfold HumidifierService.async_set_mode, ClimateService.async_set_fan_mode.
  destruct has_controller; cbn [negb].
  2: { split; [auto|]. split; split; try (intros [c [H|[]]]; discriminate);
       intros [H _]; discriminate. }
  destruct (ventilation_mode mode); cbn [negb].
  2: { split; [auto|]. split; split; try (intros [c [H|[]]]; discriminate);
       intros [_ H]; discriminate. }
  split; [discriminate|].
  assert (Hfirst : exists c, In (Cmd c)
            (run_calls call_ok
               ([CmdSetMode mode] ++ speed_nudge (String.eqb mode "standby") speed ++ [CmdRefresh]))).
  { exists (CmdSetMode mode). cbn [app run_calls].
    destruct (call_ok (CmdSetMode mode)); left; reflexivity. }
  split; split; auto.
Qed.

Lemma unknown_mode_sends_nothing_witness :
  (fun s => String.eqb s "home") "Party" = false /\
  HumidifierService.async_set_mode (fun s => String.eqb s "home") true (Some 0) (fun _ => true) "Party"
    = [SvcLogError].
Proof.
  split; [reflexivity|].
  exact (proj1 (proj1 (unknown_mode_sends_nothing (fun s => String.eqb s "home") true (Some 0)
                         (fun _ => true) "Party") eq_refl)).
Defined.

(** ** X2: the speed that follows a mode change *)

(** X2: the only speed a mode change sends is 0, after switching to
    "standby" from a running state (speed > 0), or 50, after switching to any
    other mode from a stopped state (speed 0); without a coordinator state no
    speed is sent. This holds for the humidifier's [async_set_mode] and the
    climate entity's [async_set_fan_mode], whatever call fails. *)
Theorem mode_change_speed ventilation_mode has_controller speed call_ok mode s :
  (In (Cmd (CmdSetSpeed s)) (HumidifierService.async_set_mode ventilation_mode has_controller speed call_ok mode) \/
   In (Cmd (CmdSetSpeed s)) (ClimateService.async_set_fan_mode ventilation_mode has_controller speed call_ok mode)) ->
  (mode = "standby" /\ s = 0 /\ exists v, speed = Some v /\ 0 < v) \/
  (mode <> "standby" /\ s = 50 /\ speed = Some 0).
Proof.
  unfold HumidifierService.async_set_mode, ClimateService.async_set_fan_mode.
  destruct has_controller; cbn [negb].
  2: { intros [[H|[]]|[H|[]]]; discriminate. }
  destruct (ventilation_mode mode); cbn [negb].
  2: { intros [[H|[]]|[H|[]]]; discriminate. }
  intros [H|H]; apply run_calls_cmd in H; apply mode_speed_commands; exact H.
Qed.

Lemma mode_change_speed_witness :
  In (Cmd (CmdSetSpeed 50)) (HumidifierService.async_set_mode (fun _ => true) true (Some 0) (fun _ => true) "away") /\
  ("away" <> "standby" /\ 50 = 50 /\ Some 0 = Some 0).
Proof.
  assert (H : In (Cmd (CmdSetSpeed 50))
                (HumidifierService.async_set_mode (fun _ => true) true (Some 0) (fun _ => true) "away"))
    by (simpl; auto 6).
  split; [exact H|].
  destruct (mode_change_speed (fun _ => true) true (Some 0) (fun _ => true) "away" 50 (or_introl H))
    as [[E _]|H2]; [discriminate|exact H2].
Defined.

(** ** X3: a refresh is requested only after the mode and speed were applied *)



(** ** X4: HVAC mode changes *)

(** X4: [async_set_hvac_mode] sends a speed only when no humidity sensors are
    configured for the device and a controller exists: 0 for [OFF], 50 for
    [FAN_ONLY], nothing for any other mode. With humidity sensors configured
    it sends nothing at all, [OFF] included. *)
Theorem hvac_mode_speed humidity_sensors has_controller call_ok hvac_mode s :
  In (Cmd (CmdSetSpeed s))
     (ClimateService.async_set_hvac_mode humidity_sensors has_controller call_ok hvac_mode) ->
  humidity_sensors = [] /\ has_controller = true /\
  ((hvac_mode = ClimateService.HVAC_OFF /\ s = 0) \/
   (hvac_mode = ClimateService.HVAC_FAN_ONLY /\ s = 50)).
Proof.
  unfold ClimateService.async_set_hvac_mode.
  destruct humidity_sensors as [|x xs]; simpl; [|tauto].
  destruct has_controller; simpl; [|intros [H|[]]; discriminate].
  intros H. apply run_calls_cmd in H.
  destruct hvac_mode; simpl in H.
  - destruct H as [H|[H|[]]]; [injection H as <-; auto | discriminate].
  - destruct H as [H|[H|[]]]; [injection H as <-; auto | discriminate].
  - destruct H as [H|[]]. discriminate.
Qed.

Lemma hvac_mode_speed_witness :
  In (Cmd (CmdSetSpeed 0))
     (ClimateService.async_set_hvac_mode [] true (fun _ => true) ClimateService.HVAC_OFF) /\
  ClimateService.HVAC_OFF = ClimateService.HVAC_OFF.
Proof.
  assert (H : In (Cmd (CmdSetSpeed 0))
                (ClimateService.async_set_hvac_mode [] true (fun _ => true) ClimateService.HVAC_OFF))
    by (simpl; auto).
  split; [exact H|].
  destruct (hvac_mode_speed [] true (fun _ => true) ClimateService.HVAC_OFF 0 H)
    as [_ [_ [[E _]|[E _]]]]; [exact E|discriminate].
Defined.

(** ** X5: filter reset *)

(** X5: the filter reset button calls [reset_filter_timer] only on an
    existing controller that has the method, and requests a refresh only
    after the reset returned. *)
Theorem filter_reset_guarded has_controller supports_reset call_ok c :
  In (Cmd c) (ButtonService.async_press has_controller supports_reset call_ok) ->
  has_controller = true /\ supports_reset = true /\
  (c = CmdRefresh -> call_ok CmdResetFilter = true).
Proof.
  unfold ButtonService.async_press.
  destruct has_controller; simpl; [|intros [H|[]]; discriminate].
  destruct supports_reset; simpl; [|tauto].
  intros H. repeat split.
  intros ->.
  apply (run_calls_refresh_last call_ok [CmdResetFilter]).
  - intros [H'|[]]; discriminate.
  - exact H.
  - left. reflexivity.
Qed.

Lemma filter_reset_guarded_witness :
  In (Cmd CmdResetFilter) (ButtonService.async_press true true (fun _ => true)) /\
  true = true.
Proof.
  assert (H : In (Cmd CmdResetFilter) (ButtonService.async_press true true (fun _ => true)))
    by (simpl; auto).
  split; [exact H|].
  exact (proj1 (proj2 (filter_reset_guarded true true (fun _ => true) CmdResetFilter H))).
Defined.

End ServiceFacts.

(* ------------------------------------------------------------------------- *)
(** ** The humidifier's sensor listener *)

Module ListenerFacts.

Import SensorListener.
Local Open Scope nat_scope.

Lemma tracks_app e1 e2 : tracks (e1 ++ e2) = tracks e1 + tracks e2.
Proof. unfold tracks. rewrite filter_app, length_app. reflexivity. Qed.

Lemma untracks_app e1 e2 : untracks (e1 ++ e2) = untracks e1 + untracks e2.
Proof. unfold untracks. rewrite filter_app, length_app. reflexivity. Qed.

Lemma step_balance ids o st :
  let '(st', ev) := step ids o st in
  tracks ev + held st = untracks ev + held st'.
Proof.
  destruct st as [en [l|]]; destruct o; simpl;
    unfold _subscribe_to_sensors, _unsubscribe_from_sensors; simpl;
    try (destruct ids; reflexivity); reflexivity.
Qed.

Lemma run_balance ids ops st :
  let '(st', ev) := run ids ops st in
  tracks ev + held st = untracks ev + held st'.
Proof.
  revert st. induction ops as [|o rest IH]; intros st; simpl; [reflexivity|].
  pose proof (step_balance ids o st) as H1.
  destruct (step ids o st) as [st1 ev1].
  specialize (IH st1).
  destruct (run ids rest st1) as [st2 ev2].
  rewrite tracks_app, untracks_app. lia.
Qed.

Lemma run_app ids ops1 ops2 st :
  run ids (ops1 ++ ops2) st =
  let '(st1, ev1) := run ids ops1 st in
  let '(st2, ev2) := run ids ops2 st1 in (st2, ev1 ++ ev2).
Proof.
  revert st. induction ops1 as [|o rest IH]; intros st; simpl.
  - destruct (run ids ops2 st). reflexivity.
  - destruct (step ids o st) as [st1 ev1]. rewrite IH.
    destruct (run ids rest st1) as [st2 ev2].
    destruct (run ids ops2 st2) as [st3 ev3].
    rewrite app_assoc. reflexivity.
Qed.

(** ** X6: listeners never leak *)

(** X6: starting from a freshly constructed humidifier, any sequence of
    [async_added_to_hass], [async_will_remove_from_hass],
    [enable_humidity_control] and [disable_humidity_control] registers
    exactly one more listener than it releases when a listener is left
    registered at the end, and as many as it releases otherwise: the
    "already subscribed" guard never lets a second listener be registered
    while one is held, and no listener is released twice. *)
Theorem listeners_balanced sensor_ids ops :
  let '(st, ev) := run sensor_ids ops init_lstate in
  tracks ev = untracks ev + held st.
Proof.
  pose proof (run_balance sensor_ids ops init_lstate) as H.
  destruct (run sensor_ids ops init_lstate) as [st ev].
  unfold held at 1 in H. simpl in H. lia.
Qed.

(** ** X7: disabling control stops sensor tracking *)

(** X7: whatever happened before, after [disable_humidity_control] the
    humidifier holds no sensor listener, even the one [async_added_to_hass]
    registered to keep the humidity display updated, and a sensor callback
    still delivered would not schedule a humidity check. *)
Theorem disable_stops_tracking sensor_ids ops st0 new_state :
  let st := fst (run sensor_ids (ops ++ [OpDisable]) st0) in
  st.(l_listener) = None /\ st.(l_enabled) = false /\
  ~ In ScheduleCheck (_humidity_sensor_changed new_state st).
Proof.
  simpl. rewrite run_app.
  destruct (run sensor_ids ops st0) as [st1 ev1]. simpl.
  destruct st1 as [en [l|]]; simpl; unfold _humidity_sensor_changed; simpl;
    (split; [reflexivity | split; [reflexivity|]]);
    destruct new_state as [s|]; simpl; try tauto;
    destruct ((s =? STATE_UNAVAILABLE)%string || (s =? STATE_UNKNOWN)%string); simpl;
    intuition discriminate.
Qed.

(** ** X8: no configured sensors, no listener *)

(** X8: when the device has no humidity sensors configured, no sequence of
    [async_added_to_hass], [async_will_remove_from_hass],
    [enable_humidity_control] and [disable_humidity_control] registers a
    listener. *)
Theorem no_sensors_no_listener ops st0 :
  st0.(l_listener) = None ->
  let '(st, ev) := run [] ops st0 in st.(l_listener) = None /\ tracks ev = 0.
Proof.
  revert st0. induction ops as [|o rest IH]; intros st0 H0; simpl; [auto|].
  assert (Hs : let '(st1, ev1) := step [] o st0 in l_listener st1 = None /\ tracks ev1 = 0).
  { destruct st0 as [en l]; simpl in H0; subst l.
    destruct o; simpl; unfold _subscribe_to_sensors, _unsubscribe_from_sensors; simpl; auto. }
  destruct (step [] o st0) as [st1 ev1]. destruct Hs as [H1 T1].
  specialize (IH st1 H1).
  destruct (run [] rest st1) as [st2 ev2]. destruct IH as [H2 T2].
  split; [exact H2|]. rewrite tracks_app. lia.
Qed.

Lemma no_sensors_no_listener_witness :
  init_lstate.(l_listener) = None /\
  (let '(st, ev) := run [] [OpAddedToHass; OpEnable; OpDisable; OpEnable] init_lstate in
   st.(l_listener) = None /\ tracks ev = 0).
Proof.
  split; [reflexivity|].
  apply (no_sensors_no_listener [OpAddedToHass; OpEnable; OpDisable; OpEnable] init_lstate).
  reflexivity.
Defined.

End ListenerFacts.

(* ------------------------------------------------------------------------- *)
(** ** The humidity-control switch *)

Module SwitchFacts.

Import HumidityControlSwitch.
Local Open Scope nat_scope.


Lemma toggle_first_spec device_id entities i :
  match toggle_first device_id entities i with
  | [] => forall e, In e entities -> targets device_id e = false
  | [j] => exists e, nth_error entities (j - i) = Some e /\ i <= j /\
             targets device_id e = true /\
             (forall k e', k < j - i -> nth_error entities k = Some e' -> targets device_id e' = false)
  | _ => False
  end.
Proof.
  revert i. induction entities as [|e rest IH]; intros i; simpl; [tauto|].
  assert (Hrest : forall (Ht : targets device_id e = false),
    match toggle_first device_id rest (S i) with
    | [] => forall e0, e = e0 \/ In e0 rest -> targets device_id e0 = false
    | [j] => exists e0, nth_error (e :: rest) (j - i) = Some e0 /\ i <= j /\
               targets device_id e0 = true /\
               (forall k e', k < j - i -> nth_error (e :: rest) k = Some e' ->
                             targets device_id e' = false)
    | _ => False
    end).
  { intros Ht. specialize (IH (S i)).
    destruct (toggle_first device_id rest (S i)) as [|j [|x y]]; [| |exact IH].
    - intros e0 [<-|H]; [exact Ht | exact (IH e0 H)].
    - destruct IH as [e0 [Hn [Hle [Ht0 Hb]]]].
      exists e0. replace (j - i) with (S (j - S i)) by lia.
      split; [exact Hn|]. split; [lia|]. split; [exact Ht0|].
      intros [|k] e' Hk Hk'.
      + simpl in Hk'. injection Hk' as <-. exact Ht.
      + simpl in Hk'. apply (Hb k e'); [lia | exact Hk']. }
  unfold targets at 1 in Hrest.
  destruct (h_device_id e) as [d|] eqn:Ed.
  - destruct (String.eqb d device_id) eqn:Eq; simpl in Hrest.
    + destruct (h_has_method e) eqn:Em.
      * exists e. rewrite Nat.sub_diag. repeat split; auto.
        -- unfold targets. rewrite Ed, Eq, Em. reflexivity.
        -- intros k e' Hk. lia.
      * apply Hrest. reflexivity.
    + apply Hrest. reflexivity.
  - apply Hrest. reflexivity.
Qed.

(** ** X9: the switch acts on the first matching humidifier only *)

(** X9: [_update_humidity_entity] calls the enable/disable method of at
    most one humidifier entity: the first one in the component's entity list
    whose [device_id] is the switch's device and which has the method. A
    matching entity without the method is skipped, and when no entity
    qualifies (or there is no humidifier component) nothing is called. *)
Theorem switch_targets_first device_id component :
  match _update_humidity_entity device_id component with
  | [] => forall entities e, component = Some entities -> In e entities ->
            targets device_id e = false
  | [j] => exists entities e, component = Some entities /\
             nth_error entities j = Some e /\ targets device_id e = true /\
             (forall k e', k < j -> nth_error entities k = Some e' -> targets device_id e' = false)
  | _ => False
  end.
Proof.
  unfold _update_humidity_entity.
  destruct component as [entities|]; [|intros entities e H; discriminate].
  pose proof (toggle_first_spec device_id entities 0) as H.
  destruct (toggle_first device_id entities 0) as [|j [|x y]]; [| |exact H].
  - intros ents e Hc. injection Hc as <-. exact (H e).
  - destruct H as [e [Hn [_ [Ht Hb]]]]. rewrite Nat.sub_0_r in Hn, Hb.
    exists entities, e. auto.
Qed.

End SwitchFacts.

(* ------------------------------------------------------------------------- *)
(** ** Coordinator: polling cycle and device setup *)

Module PollFacts.

Import Coordinator.
Import CoordinatorScenarios.

Lemma In_dict_set {V} (d : dict V) k v kv :
  In kv (dict_set d k v) -> In kv d \/ kv = (k, v).
Proof.
  induction d as [|[k' v'] r IH]; cbn.
  - intros [H|[]]. right. symmetry. exact H.
  - destruct (String.eqb k' k).
    + intros [H|H]; [right; symmetry; exact H | left; right; exact H].
    + intros [H|H]; [left; left; exact H|].
      destruct (IH H); [left; right; assumption | right; assumption].
Qed.

Lemma dict_set_new {V} (d : dict V) k v :
  ~ In k (map fst d) -> dict_set d k v = d ++ [(k, v)].
Proof.
  induction d as [|[k' v'] r IH]; cbn; [reflexivity|].
  intros Hn. destruct (String.eqb_spec k' k) as [->|Hne].
  - exfalso. apply Hn. left. reflexivity.
  - rewrite IH; [reflexivity|]. intros H. apply Hn. right. exact H.
Qed.


Lemma local_to_cloud_trans c1 c2 c3 :
  local_to_cloud c1 c2 -> local_to_cloud c2 c3 -> local_to_cloud c1 c3.
Proof.
  intros H12 H23 k.
  destruct (H23 k) as [E23|[E2 E3]]; destruct (H12 k) as [E12|[E1 E2']].
  - left. congruence.
  - right. split; congruence.
  - right. split; congruence.
  - rewrite E2 in E2'. discriminate.
Qed.

Lemma poll_local_to_cloud gs items c states ev :
  let '(c', _, _) := poll_devices gs items c states ev in local_to_cloud c c'.
Proof.
  revert c states ev. induction items as [|[dev_id ctl] rest IH]; intros c states ev; cbn.
  - intros k. left. reflexivity.
  - destruct (gs (ctl_client ctl)); [apply IH|].
    destruct (dict_get (connection_modes c) dev_id) as [m|] eqn:Em; cbn; [|apply IH].
    destruct (String.eqb_spec m CONNECTION_MODE_LOCAL) as [->|_]; cbn; [|apply IH].
    destruct (dict_get (cloud_clients c) dev_id) as [cc|]; [|apply IH].
    destruct (dict_get (devices c) dev_id) as [d|]; [|apply IH].
    destruct (_create_controller cc d) as [cctl|]; [|apply IH].
    assert (H1 : local_to_cloud c (set_controller c dev_id cctl CONNECTION_MODE_CLOUD)).
    { intros k. cbn. destruct (String.eqb_spec dev_id k) as [<-|Hne].
      - right. rewrite CoordinatorFacts.dict_get_set_same. auto.
      - left. apply CoordinatorFacts.dict_get_set_other. exact Hne. }
    destruct (gs cc).
    + pose proof (IH (set_controller c dev_id cctl CONNECTION_MODE_CLOUD)
                     (dict_set states dev_id cc)
                     (ev ++ [EvGetState (ctl_client ctl)] ++ [EvCreateController cc; EvGetState cc])) as H2.
      rewrite <- app_assoc.
      destruct (poll_devices _ _ _ _ _) as [[c' s'] e']. eapply local_to_cloud_trans; eauto.
    + pose proof (IH (set_controller c dev_id cctl CONNECTION_MODE_CLOUD) states
                     (ev ++ [EvGetState (ctl_client ctl)] ++ [EvCreateController cc; EvGetState cc])) as H2.
      rewrite <- app_assoc.
      destruct (poll_devices _ _ _ _ _) as [[c' s'] e']. eapply local_to_cloud_trans; eauto.
Qed.

(** ** X10: polling never switches a device to local *)

(** X10: across one polling cycle of [_async_update_data], each device's
    connection mode either stays as it was or goes from local to cloud; no
    device is ever switched to local, and no device gains or loses a mode. *)
Theorem poll_modes_local_to_cloud get_state_ok c k :
  let c' := fst (fst (_async_update_data get_state_ok c)) in
  dict_get c'.(connection_modes) k = dict_get c.(connection_modes) k \/
  (dict_get c.(connection_modes) k = Some CONNECTION_MODE_LOCAL /\
   dict_get c'.(connection_modes) k = Some CONNECTION_MODE_CLOUD).
Proof.
  unfold _async_update_data.
  pose proof (poll_local_to_cloud get_state_ok (controllers c) c [] []) as H.
  destruct (poll_devices _ _ _ _ _) as [[c1 s] ev]. cbn. apply H.
Qed.

Lemma poll_no_local gs items c states ev :
  (forall kv, In kv c.(connection_modes) -> snd kv <> CONNECTION_MODE_LOCAL) ->
  let '(c', _, _) := poll_devices gs items c states ev in
  forall kv, In kv c'.(connection_modes) -> snd kv <> CONNECTION_MODE_LOCAL.
Proof.
  revert c states ev. induction items as [|[dev_id ctl] rest IH]; intros c states ev Hc; cbn.
  - exact Hc.
  - assert (Hset : forall cctl, forall kv,
              In kv (set_controller c dev_id cctl CONNECTION_MODE_CLOUD).(connection_modes) ->
              snd kv <> CONNECTION_MODE_LOCAL).
    { intros cctl kv Hin. cbn in Hin. apply In_dict_set in Hin.
      destruct Hin as [Hin| ->]; [exact (Hc kv Hin) | cbn; discriminate]. }
    destruct (gs (ctl_client ctl)); [apply IH; exact Hc|].
    destruct (dict_get (connection_modes c) dev_id) as [m|]; cbn; [|apply IH; exact Hc].
    destruct (String.eqb m CONNECTION_MODE_LOCAL); cbn; [|apply IH; exact Hc].
    destruct (dict_get (cloud_clients c) dev_id) as [cc|]; [|apply IH; exact Hc].
    destruct (dict_get (devices c) dev_id) as [d|]; [|apply IH; exact Hc].
    destruct (_create_controller cc d) as [cctl|]; [|apply IH; exact Hc].
    destruct (gs cc); apply IH; apply Hset.
Qed.

(** ** X11: an all-cloud installation keeps the cloud polling interval *)

(** X11: when no device is in local mode before a polling cycle, none is
    after it, and [_async_update_data] sets the update interval to the cloud
    interval of 60 seconds. *)
Theorem all_cloud_interval get_state_ok c :
  (forall kv, In kv c.(connection_modes) -> snd kv <> CONNECTION_MODE_LOCAL) ->
  let c' := fst (fst (_async_update_data get_state_ok c)) in
  c'.(update_interval) = UPDATE_INTERVAL_CLOUD /\
  (forall kv, In kv c'.(connection_modes) -> snd kv <> CONNECTION_MODE_LOCAL).
Proof.
  intros Hc. unfold _async_update_data.
  pose proof (poll_no_local get_state_ok (controllers c) c [] [] Hc) as H.
  destruct (poll_devices _ _ _ _ _) as [[c1 s] ev]. cbn.
  split; [|exact H].
  destruct (any_local (connection_modes c1)) eqn:E; [|reflexivity].
  unfold any_local in E. apply existsb_exists in E. destruct E as [kv [Hin Hl]].
  apply String.eqb_eq in Hl. exfalso. exact (H kv Hin Hl).
Qed.


Lemma all_cloud_interval_witness :
  (forall kv, In kv cloud_only.(connection_modes) -> snd kv <> CONNECTION_MODE_LOCAL) /\
  (fst (fst (_async_update_data (fun _ => false) cloud_only))).(update_interval)
    = UPDATE_INTERVAL_CLOUD.
Proof.
  assert (H : forall kv, In kv cloud_only.(connection_modes) -> snd kv <> CONNECTION_MODE_LOCAL).
  { intros kv [<-|[]]. cbn. discriminate. }
  split; [exact H|].
  exact (proj1 (all_cloud_interval (fun _ => false) cloud_only H)).
Defined.

Lemma poll_all_ok gs items c states ev :
  (forall kv, In kv items -> gs (snd kv).(ctl_client) = true) ->
  NoDup (map fst states ++ map fst items) ->
  poll_devices gs items c states ev =
  (c, states ++ map (fun kv => (fst kv, (snd kv).(ctl_client))) items,
   ev ++ map (fun kv => EvGetState (snd kv).(ctl_client)) items).
Proof.
  revert states ev. induction items as [|[dev_id ctl] rest IH]; intros states ev Hok Hnd; cbn.
  - rewrite !app_nil_r. reflexivity.
  - assert (E := Hok (dev_id, ctl) (or_introl eq_refl)). cbn in E. rewrite E.
    rewrite dict_set_new.
    + rewrite IH.
      * rewrite <- !app_assoc. reflexivity.
      * intros kv Hin. apply Hok. right. exact Hin.
      * rewrite map_app, <- app_assoc. exact Hnd.
    + intros Hin. apply NoDup_remove_2 in Hnd. apply Hnd. apply in_or_app. left. exact Hin.
Qed.

(** ** X12: a cycle where every device answers *)

(** X12: when every device's [get_state] returns, a polling cycle reads each
    device exactly once, in the order of [self.controllers], through its own
    controller, returns one entry per device, and changes no controller,
    client or connection mode (only the update interval is recomputed). *)
Theorem poll_all_answer get_state_ok c :
  (forall kv, In kv c.(controllers) -> get_state_ok (snd kv).(ctl_client) = true) ->
  NoDup (map fst c.(controllers)) ->
  _async_update_data get_state_ok c =
  (set_update_interval c
     (if any_local c.(connection_modes) then UPDATE_INTERVAL_LOCAL else UPDATE_INTERVAL_CLOUD),
   map (fun kv => (fst kv, (snd kv).(ctl_client))) c.(controllers),
   map (fun kv => EvGetState (snd kv).(ctl_client)) c.(controllers)).
Proof.
  intros Hok Hnd. unfold _async_update_data.
  rewrite poll_all_ok; [reflexivity | exact Hok | exact Hnd].
Qed.


Lemma poll_all_answer_witness :
  NoDup (map fst two_devices.(controllers)) /\
  snd (fst (_async_update_data (fun _ => true) two_devices))
    = [("hru1", ModbusClient "192.168.1.50"); ("fan1", CloudClient "fan1")].
Proof.
  assert (Hnd : NoDup (map fst two_devices.(controllers))).
  { cbn. constructor; [intros [H|[]]; discriminate|].
    constructor; [intros []|constructor]. }
  split; [exact Hnd|].
  rewrite (poll_all_answer (fun _ => true) two_devices (fun _ _ => eq_refl) Hnd).
  reflexivity.
Defined.

End PollFacts.

Module SetupFacts.

Import Coordinator.

Lemma create_controller_known cl d :
  d.(product_type) <> OTHER_PRODUCT_TYPE ->
  exists k, _create_controller cl d = Some (mk_controller k cl).
Proof.
  unfold _create_controller. destruct (product_type d); intros H;
    try (eexists; reflexivity). contradiction.
Qed.

(** ** X13: how one device gets connected *)

(** X13: for a device of a known product type, with the cloud API set,
    [_setup_device_connection] tries Modbus exactly once, on the address
    [local_ips.get(device_id) or device.host], or not at all when that is
    empty. If the connection succeeds the device is in local mode with a
    controller over that Modbus client, the Modbus client is recorded and no
    cloud client is created; otherwise it is in cloud mode with a controller
    over a new cloud client and no Modbus client is recorded. *)
Theorem setup_connection_outcome modbus_connect local_ips c d dev_id :
  d.(product_type) <> OTHER_PRODUCT_TYPE -> c.(api) = true ->
  let ip := candidate_ip local_ips d dev_id in
  let '(c', ev) := _setup_device_connection modbus_connect local_ips c d dev_id in
  modbus_connects ev = (if String.eqb ip "" then [] else [ip]) /\
  ((ip <> "" /\ modbus_connect ip = true /\
    dict_get c'.(connection_modes) dev_id = Some CONNECTION_MODE_LOCAL /\
    option_map ctl_client (dict_get c'.(controllers) dev_id) = Some (ModbusClient ip) /\
    dict_get c'.(modbus_clients) dev_id = Some (ModbusClient ip) /\
    c'.(cloud_clients) = c.(cloud_clients))
   \/
   ((ip = "" \/ modbus_connect ip = false) /\
    dict_get c'.(connection_modes) dev_id = Some CONNECTION_MODE_CLOUD /\
    option_map ctl_client (dict_get c'.(controllers) dev_id) = Some (CloudClient dev_id) /\
    dict_get c'.(cloud_clients) dev_id = Some (CloudClient dev_id) /\
    c'.(modbus_clients) = c.(modbus_clients))).
Proof.
  intros Hpt Hapi ip. unfold _setup_device_connection. fold ip.
  destruct (String.eqb_spec ip "") as [He|Hne]; cbn [negb andb].
  - rewrite Hapi. cbn [negb]. unfold finish_setup.
    destruct (create_controller_known (CloudClient dev_id) d Hpt) as [k ->].
    split; [reflexivity|]. right. cbn.
    rewrite !CoordinatorFacts.dict_get_set_same. auto.
  - destruct (modbus_connect ip) eqn:Em; cbn [negb].
    + unfold finish_setup.
      destruct (create_controller_known (ModbusClient ip) d Hpt) as [k ->].
      split; [reflexivity|]. left. cbn.
      rewrite !CoordinatorFacts.dict_get_set_same. auto 7.
    + rewrite Hapi. cbn [negb]. unfold finish_setup.
      destruct (create_controller_known (CloudClient dev_id) d Hpt) as [k ->].
      split; [reflexivity|]. right. cbn.
      rewrite !CoordinatorFacts.dict_get_set_same. auto 7.
Qed.

Lemma setup_connection_outcome_witness :
  let d := mk_device "hru1" "0001c845" HEAT_RECOVERY_UNIT "192.168.1.50" in
  let c := mk_coord true [] [] [] [] [] UPDATE_INTERVAL_CLOUD in
  (d.(product_type) <> OTHER_PRODUCT_TYPE /\ c.(api) = true) /\
  modbus_connects (snd (_setup_device_connection (fun _ => false) [("hru1", "10.0.0.7")] c d "hru1"))
    = ["10.0.0.7"].
Proof.
  intros d c.
  assert (Hpt : d.(product_type) <> OTHER_PRODUCT_TYPE) by discriminate.
  split; [split; [exact Hpt | reflexivity]|].
  pose proof (setup_connection_outcome (fun _ => false) [("hru1", "10.0.0.7")] c d "hru1"
                Hpt eq_refl) as H.
  cbv zeta in H.
  destruct (_setup_device_connection _ _ _ _ _) as [c' ev]. cbn [snd].
  exact (proj1 H).
Defined.

(** ** X14: devices of unknown product type are skipped *)

(** X14: in the device loop of [_async_setup], an entry whose product id
    [ProductType.from_product_id] does not recognise leaves no trace: the
    loop behaves as if the list held only the recognised entries (no device
    record, no connection attempt, no controller for the others). *)
Theorem setup_skips_unknown modbus_connect local_ips dds c ev :
  setup_devices modbus_connect local_ips dds c ev =
  setup_devices modbus_connect local_ips (filter known_product dds) c ev.
Proof.
  revert c ev. induction dds as [|dd rest IH]; intros c ev; cbn; [reflexivity|].
  unfold known_product at 1.
  destruct (dd_product_type dd) as [pt|] eqn:E; cbn.
  - rewrite E. destruct (_setup_device_connection _ _ _ _ _) as [c1 ev1]. apply IH.
  - apply IH.
Qed.

End SetupFacts.

(* ------------------------------------------------------------------------- *)
(** ** Zone synchronisation and unloading *)

Module ZoneFacts.

Import ZoneSync.

Lemma sync_bridge_in lower b names areas b' a :
  In (CreateZone b' a) (sync_bridge lower b names areas) <->
  b' = b /\ In a areas /\ ~ In (lower a) names.
Proof.
  unfold sync_bridge. rewrite in_flat_map. split.
  - intros [area [Hin Hc]].
    destruct (existsb (String.eqb (lower area)) names) eqn:E; [destruct Hc|].
    destruct Hc as [Hc|[]]. injection Hc as -> ->.
    split; [reflexivity|]. split; [exact Hin|].
    intros Hn. assert (existsb (String.eqb (lower a)) names = true) as E'.
    { apply existsb_exists. exists (lower a). split; [exact Hn | apply String.eqb_refl]. }
    congruence.
  - intros [-> [Hin Hn]]. exists a. split; [exact Hin|].
    destruct (existsb (String.eqb (lower a)) names) eqn:E.
    + apply existsb_exists in E. destruct E as [x [Hx Ex]].
      apply String.eqb_eq in Ex. subst x. contradiction.
    + left. reflexivity.
Qed.

(** ** X15: which zones [_sync_zones] creates *)

(** X15: [_sync_zones] asks to create zone [a] on bridge [b] exactly when the
    cloud API is set, [b] is a discovered bridge whose zones could be listed,
    [a] is a Home Assistant area, and no listed zone of [b] has the same name
    up to [str.lower]. A bridge whose listing fails gets no zone, and an
    existing zone is never recreated under a differently-cased name. *)
Theorem sync_zones_creates lower api bridges list_zones areas b a :
  In (CreateZone b a) (_sync_zones lower api bridges list_zones areas) <->
  api = true /\ In b bridges /\ In a areas /\
  exists zones, list_zones b = Some zones /\
                ~ In (lower a) (existing_zone_names lower zones).
Proof.
  unfold _sync_zones. destruct api; cbn [negb].
  2: { split; [intros []|intros [H _]; discriminate]. }
  rewrite in_flat_map. split.
  - intros [b0 [Hb Hin]].
    destruct (list_zones b0) as [zones|] eqn:E; [|destruct Hin].
    apply sync_bridge_in in Hin. destruct Hin as [-> [Ha Hn]].
    split; [reflexivity|]. split; [exact Hb|]. split; [exact Ha|].
    exists zones. auto.
  - intros [_ [Hb [Ha [zones [E Hn]]]]].
    exists b. split; [exact Hb|]. rewrite E.
    apply sync_bridge_in. auto.
Qed.

Lemma sync_zones_creates_witness :
  let lower := fun s => if String.eqb s "Kitchen" then "kitchen" else s in
  let list_zones := fun b => if String.eqb b "br1" then Some [Some "kitchen"] else None in
  ~ In (CreateZone "br1" "Kitchen")
       (_sync_zones lower true ["br1"; "br2"] list_zones ["Kitchen"; "bath"]) /\
  In (CreateZone "br1" "bath")
     (_sync_zones lower true ["br1"; "br2"] list_zones ["Kitchen"; "bath"]).
Proof.
  intros lower list_zones. split.
  - intros H. apply sync_zones_creates in H.
    destruct H as [_ [_ [_ [zones [E Hn]]]]].
    cbn in E. injection E as <-. apply Hn. left. reflexivity.
  - apply sync_zones_creates.
    split; [reflexivity|]. split; [left; reflexivity|]. split; [right; left; reflexivity|].
    exists [Some "kitchen"]. split; [reflexivity|].
    cbn. intros [H|[]]. discriminate.
Defined.

End ZoneFacts.

Module UnloadFacts.

Import Coordinator.
Import Unload.
Import CoordinatorScenarios.

Lemma dict_pop_keys {V} (d : dict V) k v d' :
  dict_pop d k = Some (v, d') -> forall x, In x (map fst d') -> In x (map fst d).
Proof.
  revert v d'. induction d as [|[j u] r IH]; intros v d' E x Hin; cbn in E; [discriminate|].
  destruct (String.eqb j k).
  - injection E as _ <-. right. exact Hin.
  - destruct (dict_pop r k) as [[z r']|] eqn:E2; [|discriminate].
    injection E as _ <-. cbn in Hin. destruct Hin as [Hin|Hin]; [left; exact Hin|].
    right. exact (IH z r' eq_refl x Hin).
Qed.

Lemma dict_pop_get {V} (d : dict V) k v d' :
  NoDup (map fst d) -> dict_pop d k = Some (v, d') ->
  dict_get d k = Some v /\ dict_get d' k = None /\ NoDup (map fst d').
Proof.
  revert d'. induction d as [|[k' w] r IH]; intros d' Hnd; cbn; [discriminate|].
  inversion Hnd as [|x y Hnin Hnd' Heq]; subst.
  destruct (String.eqb_spec k' k) as [->|Hne].
  - intros H. injection H as <- <-. split; [reflexivity|]. split; [|exact Hnd'].
    clear IH Hnd Hnd'. induction r as [|[j u] r' IHr]; cbn; [reflexivity|].
    destruct (String.eqb_spec j k) as [->|_].
    + exfalso. apply Hnin. left. reflexivity.
    + apply IHr. intros H. apply Hnin. right. exact H.
  - destruct (dict_pop r k) as [[x r']|] eqn:E; [|discriminate].
    intros H. injection H as -> <-.
    destruct (IH r' Hnd' eq_refl) as [H1 [H2 H3]].
    split; [exact H1|]. cbn.
    destruct (String.eqb_spec k' k) as [Heq'|_]; [contradiction|].
    split; [exact H2|].
    constructor; [|exact H3].
    intros Hin. apply Hnin. exact (dict_pop_keys r k v r' E k' Hin).
Qed.

Lemma modbus_disconnects_all (ok : string -> bool) (clients : dict client) :
  modbus_disconnects
    (flat_map (fun kv => if ok (fst kv) then [DisconnectModbus (fst kv)]
                         else [DisconnectModbus (fst kv); WarnModbus (fst kv)]) clients)
  = map fst clients.
Proof.
  induction clients as [|kv rest IH]; cbn; [reflexivity|].
  unfold modbus_disconnects in *. rewrite flat_map_app.
  destruct (ok (fst kv)); cbn; rewrite IH; reflexivity.
Qed.

(** ** X16: unloading closes every connection *)

(** X16: when the platforms unload, [async_unload_entry] removes the entry's
    coordinator from [hass.data[DOMAIN]], calls [disconnect] on every Modbus
    client of the coordinator, in order, whichever of them raise, and then
    disconnects the cloud API if it is set; it returns [True]. When the
    platforms do not unload it returns [False] and touches nothing. *)
Theorem unload_closes_all unload_ok store entry_id modbus_disconnect_ok api_disconnect_ok c :
  NoDup (map fst store) -> dict_get store entry_id = Some c ->
  match async_unload_entry unload_ok store entry_id modbus_disconnect_ok api_disconnect_ok with
  | Some (ok, store', ev) =>
      ok = unload_ok /\
      (unload_ok = false -> store' = store /\ ev = []) /\
      (unload_ok = true ->
       dict_get store' entry_id = None /\
       modbus_disconnects ev = map fst c.(modbus_clients) /\
       (In DisconnectApi ev <-> c.(api) = true))
  | None => False
  end.
Proof.
  intros Hnd Hget. unfold async_unload_entry.
  destruct unload_ok; cbn [negb].
  2: { split; [reflexivity|]. split; [auto|]. discriminate. }
  destruct (dict_pop store entry_id) as [[c0 store']|] eqn:Ep.
  2: { exfalso. clear Hnd. induction store as [|[k v] r IH]; cbn in Hget, Ep; [discriminate|].
       destruct (String.eqb k entry_id); [discriminate|].
       destruct (dict_pop r entry_id) as [[x r']|]; [discriminate|]. exact (IH Hget eq_refl). }
  destruct (dict_pop_get store entry_id c0 store' Hnd Ep) as [H1 [H2 _]].
  rewrite Hget in H1. injection H1 as <-.
  split; [reflexivity|]. split; [discriminate|]. intros _.
  split; [exact H2|].
  unfold modbus_disconnects at 1. rewrite flat_map_app. fold (modbus_disconnects
    (flat_map (fun kv => if modbus_disconnect_ok (fst kv) then [DisconnectModbus (fst kv)]
                         else [DisconnectModbus (fst kv); WarnModbus (fst kv)]) (modbus_clients c))).
  rewrite modbus_disconnects_all.
  split.
  - destruct (api c); destruct api_disconnect_ok; cbn; rewrite app_nil_r; reflexivity.
  - rewrite in_app_iff, in_flat_map. split.
    + intros [[kv [_ Hkv]]|Hin].
      * destruct (modbus_disconnect_ok (fst kv)); cbn in Hkv; intuition discriminate.
      * destruct (api c); [reflexivity|destruct Hin].
    + intros ->. right. destruct api_disconnect_ok; left; reflexivity.
Qed.


Lemma unload_closes_all_witness :
  NoDup (map fst [("entry1", stored)]) /\
  match async_unload_entry true [("entry1", stored)] "entry1"
          (fun id => negb (String.eqb id "hru1")) false with
  | Some (_, _, ev) => modbus_disconnects ev = ["hru1"; "hru2"]
  | None => False
  end.
Proof.
  assert (Hnd : NoDup (map fst [("entry1", stored)])) by (constructor; [intros []|constructor]).
  split; [exact Hnd|].
  pose proof (unload_closes_all true [("entry1", stored)] "entry1"
                (fun id => negb (String.eqb id "hru1")) false stored Hnd eq_refl) as H.
  destruct (async_unload_entry _ _ _ _ _) as [[[ok store'] ev]|]; [|exact H].
  destruct H as [_ [_ H]]. exact (proj1 (proj2 (H eq_refl))).
Defined.

End UnloadFacts.
